(** * pushshift-bridge: the request handler of [api/pushshift-bridge.ts]

    A shallow embedding of the single endpoint of the bridge: the
    configuration and credential checks, the zod request schema, the call
    to the upstream bridge and the normalisation of its answer.

    JavaScript values are an inductive type, exceptions are an error
    monad, and the effects of the handler (reading the request body,
    calling the upstream, reading its answer) are recorded in a trace. *)

From Stdlib Require Import String Ascii List ZArith Bool Lia.
From Stdlib Require Import Floats.SpecFloat.
From Stdlib Require Import DecimalString.
Import ListNotations.
Local Open Scope string_scope.
Local Open Scope Z_scope.

Set Implicit Arguments.

(* ===================================================================== *)
(** ** JavaScript values *)
(* ===================================================================== *)

(** A JS number is an IEEE-754 double; [spec_float] is the Standard
    Library's specification of them (sign, mantissa, exponent). *)
Definition number := spec_float.

(** A JS string is a sequence of code units; one [ascii] stands for one
    code unit. An object is the list of its own data properties, looked
    up by the first match. [Undefined] is what reading a missing property
    gives; [JSON.parse] never produces it. *)
Unset Elimination Schemes.
Inductive value : Type :=
| Undefined
| Null
| Bool (b : bool)
| Num (n : number)
| Str (s : string)
| Arr (items : list value)
| Obj (props : list (string * value)).
Set Elimination Schemes.

(** What [JSON.parse] can return: no [undefined], no NaN. *)
Fixpoint is_json (v : value) : bool :=
  match v with
  | Undefined => false
  | Null | Bool _ | Str _ => true
  | Num S754_nan => false
  | Num _ => true
  | Arr items => forallb is_json items
  | Obj props => forallb (fun kv => is_json (snd kv)) props
  end.

(** Thrown values: [err_message] is [Some m] when [typeof err?.message]
    is ["string"]. *)
Record exn : Type := mkExn { err_message : option string }.

(** The TypeErrors of the runtime; the wording of their message is the
    engine's. *)
Definition TypeError (msg : string) : exn := mkExn (Some msg).

Inductive result (A : Type) : Type :=
| Ok (a : A)
| Throw (e : exn).
Arguments Ok {A} a.
Arguments Throw {A} e.

Definition rbind {A B : Type} (m : result A) (k : A -> result B) : result B :=
  match m with
  | Ok a => k a
  | Throw e => Throw e
  end.

Declare Scope js_scope.
Delimit Scope js_scope with js.
Notation "x <- m ;; k" := (rbind m (fun x => k))
  (at level 61, m at next level, right associativity) : js_scope.
Local Open Scope js_scope.

Definition returns {A : Type} (m : result A) : bool :=
  match m with Ok _ => true | Throw _ => false end.

(** [xs.map(f)] on an array without holes: elements in order, the first
    exception ends the loop. *)
Fixpoint mapM {A B : Type} (f : A -> result B) (xs : list A) : result (list B) :=
  match xs with
  | [] => Ok []
  | x :: rest =>
      y <- f x ;;
      ys <- mapM f rest ;;
      Ok (y :: ys)
  end.

(** *** Property access *)

Fixpoint lookup (k : string) (props : list (string * value)) : option value :=
  match props with
  | [] => None
  | (k', v) :: rest => if String.eqb k k' then Some v else lookup k rest
  end.

Definition has_own (k : string) (props : list (string * value)) : bool :=
  match lookup k props with Some _ => true | None => false end.

(** [o.k] for the property names the handler reads ([comments], [data],
    [results], [id], [author], [body], [selftext], [score],
    [created_utc], [created], [permalink], [subreddit]): none of them is
    an array index, [length], or a property of a built-in prototype, so
    on a boolean, number, string or array the read gives [undefined]. On
    [null] and [undefined] a property read throws. *)
Definition Get (o : value) (k : string) : result value :=
  match o with
  | Undefined =>
      Throw (TypeError ("Cannot read properties of undefined (reading '" ++ k ++ "')"))
  | Null =>
      Throw (TypeError ("Cannot read properties of null (reading '" ++ k ++ "')"))
  | Obj props =>
      Ok (match lookup k props with Some v => v | None => Undefined end)
  | Bool _ | Num _ | Str _ | Arr _ => Ok Undefined
  end.

(** [o?.k] *)
Definition OptGet (o : value) (k : string) : result value :=
  match o with
  | Undefined | Null => Ok Undefined
  | _ => Get o k
  end.

Definition nullish (v : value) : bool :=
  match v with
  | Undefined | Null => true
  | _ => false
  end.

(** [a ?? b]: the right operand is evaluated only when the left one is
    [null] or [undefined]. *)
Definition coalesce (a : value) (b : result value) : result value :=
  if nullish a then b else Ok a.

Definition typeof (v : value) : string :=
  match v with
  | Undefined => "undefined"
  | Null | Arr _ | Obj _ => "object"
  | Bool _ => "boolean"
  | Num _ => "number"
  | Str _ => "string"
  end.

(* ===================================================================== *)
(** ** Numbers *)
(* ===================================================================== *)

(** The double nearest to an integer (exact below 2^53). *)
Definition number_of_Z (z : Z) : number := binary_normalize 53 1024 z 0 false.

(** The exact integer value of a double, when it has one:
    [Number.isInteger(x)] is [true] exactly when this is [Some _]. *)
Definition integer_value (x : number) : option Z :=
  match x with
  | S754_zero _ => Some 0
  | S754_infinity _ | S754_nan => None
  | S754_finite s m e =>
      let sm := if s then Z.neg m else Z.pos m in
      if 0 <=? e then Some (sm * 2 ^ e)
      else if (Z.pos m mod 2 ^ (- e)) =? 0 then Some (sm / 2 ^ (- e))
      else None
  end.

Definition isInteger (x : number) : bool :=
  match integer_value x with Some _ => true | None => false end.

(** [x < k] and [x > k] for a double [x] and an integer [k], computed
    exactly on the mantissa and exponent; both are [false] on NaN. *)
Definition lt_int (x : number) (k : Z) : bool :=
  match x with
  | S754_zero _ => 0 <? k
  | S754_infinity s => s
  | S754_nan => false
  | S754_finite s m e =>
      let sm := if s then Z.neg m else Z.pos m in
      if 0 <=? e then sm * 2 ^ e <? k else sm <? k * 2 ^ (- e)
  end.

Definition gt_int (x : number) (k : Z) : bool :=
  match x with
  | S754_zero _ => k <? 0
  | S754_infinity s => negb s
  | S754_nan => false
  | S754_finite s m e =>
      let sm := if s then Z.neg m else Z.pos m in
      if 0 <=? e then k <? sm * 2 ^ e else k * 2 ^ (- e) <? sm
  end.

(* ===================================================================== *)
(** ** Coercion to text and the per-item mapping *)
(* ===================================================================== *)

Section Normaliser.

(** [Number::toString] for doubles: the shortest decimal that reads back
    as the same double, whose last digit ECMAScript leaves to the
    engine. It is a parameter of the development. *)
Variable NumberToString : number -> string.

(** [String(v)]. An array is joined with commas, [null] and [undefined]
    elements giving the empty text. A plain object gives
    "[object Object]" through [Object.prototype.toString], unless it has
    an own property [toString]: that property holds data, which is not
    callable, [valueOf] does not give a primitive either, and the
    conversion throws. *)
Fixpoint ToString (v : value) : result string :=
  match v with
  | Undefined => Ok "undefined"
  | Null => Ok "null"
  | Bool true => Ok "true"
  | Bool false => Ok "false"
  | Num n => Ok (NumberToString n)
  | Str s => Ok s
  | Arr items =>
      (fix join (l : list value) : result string :=
         match l with
         | [] => Ok ""
         | x :: rest =>
             s <- (if nullish x then Ok "" else ToString x) ;;
             match rest with
             | [] => Ok s
             | _ :: _ => r <- join rest ;; Ok (s ++ "," ++ r)
             end
         end) items
  | Obj props =>
      if has_own "toString" props
      then Throw (TypeError "Cannot convert object to primitive value")
      else Ok "[object Object]"
  end.

(** [v === undefined || v === null ? null : String(v)], for [v] a data
    property of the item: the source reads it three times and gets the
    same value each time, so it is read once here. *)
Definition text_or_null (v : value) : result value :=
  if nullish v then Ok Null
  else s <- ToString v ;; Ok (Str s).

Definition is_number (v : value) : bool := String.eqb (typeof v) "number".

(** The arrow function given to [rawComments.map] (lines 125-148). The
    properties of the literal are evaluated in source order. *)
Definition normalise (c : value) : result value :=
  id <- (v <- Get c "id" ;;
         w <- coalesce v (Ok (Str "")) ;;
         s <- ToString w ;; Ok (Str s)) ;;
  author <- (v <- Get c "author" ;; text_or_null v) ;;
  body <- (v <- Get c "body" ;;
           w <- coalesce v (v' <- Get c "selftext" ;;
                            coalesce v' (Ok (Str ""))) ;;
           s <- ToString w ;; Ok (Str s)) ;;
  score <- (v <- Get c "score" ;;
            Ok (if is_number v then v else Null)) ;;
  created_utc <- (v <- Get c "created_utc" ;;
                  if is_number v then Ok v
                  else v' <- Get c "created" ;;
                       Ok (if is_number v' then v' else Null)) ;;
  permalink <- (v <- Get c "permalink" ;; text_or_null v) ;;
  subreddit <- (v <- Get c "subreddit" ;; text_or_null v) ;;
  Ok (Obj [("id", id); ("author", author); ("body", body);
           ("score", score); ("created_utc", created_utc);
           ("permalink", permalink); ("subreddit", subreddit)]).

(** [upstreamJson?.comments ?? upstreamJson?.data ??
     upstreamJson?.results ?? []] (lines 119-123) *)
Definition rawComments (upstreamJson : value) : result value :=
  c <- OptGet upstreamJson "comments" ;;
  coalesce c
    (d <- OptGet upstreamJson "data" ;;
     coalesce d
       (r <- OptGet upstreamJson "results" ;;
        coalesce r (Ok (Arr [])))).

(** [raw.map(f)]: an array is mapped; on anything else [map] is missing
    or, as an own data property, not callable. *)
Definition call_map (raw : value) (f : value -> result value) : result (list value) :=
  match raw with
  | Arr items => mapM f items
  | _ => Throw (TypeError "rawComments.map is not a function")
  end.

Definition comments_of (upstreamJson : value) : result (list value) :=
  raw <- rawComments upstreamJson ;;
  call_map raw normalise.

End Normaliser.

(* ===================================================================== *)
(** ** The request schema (lines 11-17) *)
(* ===================================================================== *)

(** The schema is built from zod's combinators; they are embedded with
    the behaviour of zod 3: a type mismatch gives one [invalid_type]
    issue, the checks of a number all run and each failing one adds an
    issue, and an object reports the issues of its fields in the order
    of its shape. An issue is kept with its [code] and [path]. *)
Module Zod.

Inductive IssueCode : Type := invalid_type | too_small | too_big.

Record ZodIssue : Type := mkIssue { code : IssueCode; path : list string }.

Inductive parsed (A : Type) : Type :=
| Valid (data : A)
| Invalid (issues : list ZodIssue).
Arguments Valid {A} data.
Arguments Invalid {A} issues.

Definition schema (A : Type) : Type := list string -> value -> parsed A.

(** [z.string().min(n)] *)
Definition string_min (n : nat) : schema string :=
  fun path v =>
    match v with
    | Str s =>
        if (String.length s <? n)%nat then Invalid [mkIssue too_small path]
        else Valid s
    | _ => Invalid [mkIssue invalid_type path]
    end.

(** The checks of [z.number().int()] with optional [.min(lo)] and
    [.max(hi)], in the order they were added. *)
Definition number_checks (lo hi : option Z) (path : list string) (x : number)
  : list ZodIssue :=
  (if isInteger x then [] else [mkIssue invalid_type path])
  ++ match lo with
     | Some k => if lt_int x k then [mkIssue too_small path] else []
     | None => []
     end
  ++ match hi with
     | Some k => if gt_int x k then [mkIssue too_big path] else []
     | None => []
     end.

Definition number_int (lo hi : option Z) : schema number :=
  fun path v =>
    match v with
    | Num S754_nan => Invalid [mkIssue invalid_type path]
    | Num x =>
        match number_checks lo hi path x with
        | [] => Valid x
        | issues => Invalid issues
        end
    | _ => Invalid [mkIssue invalid_type path]
    end.

(** [.default(d)]: [undefined] is replaced by [d] before the inner
    schema runs. *)
Definition default {A : Type} (inner : schema A) (d : value) : schema A :=
  fun path v =>
    match v with
    | Undefined => inner path d
    | _ => inner path v
    end.

(** [.optional()] *)
Definition optional {A : Type} (inner : schema A) : schema (option A) :=
  fun path v =>
    match v with
    | Undefined => Valid None
    | _ => match inner path v with
           | Valid a => Valid (Some a)
           | Invalid issues => Invalid issues
           end
    end.

Definition issues_of {A : Type} (p : parsed A) : list ZodIssue :=
  match p with
  | Valid _ => []
  | Invalid issues => issues
  end.

End Zod.
Import Zod.

(** [RequestBody = z.infer<typeof RequestSchema>] *)
Record RequestBody : Type := mkRequestBody {
  rb_subreddit : string;
  rb_query : string;
  rb_size : number;
  rb_before : option number;
  rb_after : option number
}.

Definition field (props : list (string * value)) (k : string) : value :=
  match lookup k props with
  | Some v => v
  | None => Undefined
  end.

(** [RequestSchema.safeParse(rawBody)]: the input must be an object
    (not [null], not an array); unknown keys are dropped. *)
Definition RequestSchema_safeParse (rawBody : value) : parsed RequestBody :=
  match rawBody with
  | Obj props =>
      let subreddit := string_min 1 ["subreddit"] (field props "subreddit") in
      let query := string_min 1 ["query"] (field props "query") in
      let size :=
        default (number_int (Some 1) (Some 500)) (Num (number_of_Z 50))
                ["size"] (field props "size") in
      let before :=
        optional (number_int None None) ["before"] (field props "before") in
      let after :=
        optional (number_int None None) ["after"] (field props "after") in
      match subreddit, query, size, before, after with
      | Valid s, Valid q, Valid n, Valid b, Valid a =>
          Valid (mkRequestBody s q n b a)
      | _, _, _, _, _ =>
          Invalid (issues_of subreddit ++ issues_of query ++ issues_of size
                   ++ issues_of before ++ issues_of after)
      end
  | _ => Invalid [mkIssue invalid_type []]
  end.

(* ===================================================================== *)
(** ** The handler (lines 32-184) *)
(* ===================================================================== *)

(** The two secrets read from [process.env] when the module loads;
    [None] is [undefined]. *)
Record Config : Type := mkConfig {
  BRIDGE_URL : option string;
  API_KEY : option string
}.

(** What the handler looks at in the inbound request: the method, the
    result of [headers.get("x-mcp-key")] ([None] is [null]) and the
    outcome of [request.json()]. *)
Record Request : Type := mkRequest {
  req_method : string;
  req_x_mcp_key : option string;
  req_json : result value
}.

(** The answer of the upstream bridge: its status and the outcomes of
    [text()] and [json()]. *)
Record UpstreamResponse : Type := mkUpstream {
  up_status : Z;
  up_text : result string;
  up_json : result value
}.

(** [Response.ok]: the status is in the range 200-299. *)
Definition up_ok (r : UpstreamResponse) : bool :=
  (200 <=? up_status r) && (up_status r <=? 299).

(** The network: what [fetch(url, { method: "POST", body })] gives for a
    URL and a request body (kept as the record that is serialised). *)
Definition Network : Type := string -> RequestBody -> result UpstreamResponse.

(** The document given to [jsonResponse], before [JSON.stringify]. *)
Inductive Body : Type :=
| ErrorBody (error : string)
| InvalidBody (error : string) (issues : list ZodIssue)
| UpstreamBody (error : string) (status : Z) (detail : string)
| UnexpectedBody (error : string) (detail : string)
| OkBody (ok : bool) (count : nat) (comments : list value).

Record Response : Type := mkResponse { status : Z; body : Body }.

Definition jsonResponse (data : Body) (status : Z) : Response :=
  mkResponse status data.

(** The effects of one call of the handler, in the order they happen. *)
Inductive Event : Type :=
| ReadRequestBody
| CallUpstream (url : string) (body : RequestBody)
| ReadUpstreamText
| ReadUpstreamJson.

(** A computation with a trace of effects that returns or throws. *)
Definition io (A : Type) : Type := (list Event * result A)%type.

Definition io_ret {A : Type} (a : A) : io A := ([], Ok a).

Definition io_bind {A B : Type} (m : io A) (k : A -> io B) : io B :=
  match m with
  | (t, Ok a) => let (t', r) := k a in ((t ++ t')%list, r)
  | (t, Throw e) => (t, Throw e)
  end.

(** [try { m } catch (e) { h(e) }] *)
Definition io_catch {A : Type} (m : io A) (h : exn -> io A) : io A :=
  match m with
  | (t, Throw e) => let (t', r) := h e in ((t ++ t')%list, r)
  | _ => m
  end.

Definition io_lift {A : Type} (r : result A) : io A := ([], r).

Definition perform {A : Type} (ev : Event) (r : result A) : io A := ([ev], r).

Notation "x <~ m ;; k" := (io_bind m (fun x => k))
  (at level 61, m at next level, right associativity) : js_scope.

(** [!s] for [s : string | undefined] (or [string | null]) *)
Definition falsy (s : option string) : bool :=
  match s with
  | None => true
  | Some s => String.eqb s ""
  end.

(** [a !== b] on [string | null] values *)
Definition strict_neq (a b : option string) : bool :=
  match a, b with
  | Some x, Some y => negb (String.eqb x y)
  | None, None => false
  | _, _ => true
  end.

(** [text.slice(0, n)] *)
Definition slice0 (n : nat) (text : string) : string := String.substring 0 n text.

(** The string a secret is narrowed to after its [!secret] check. *)
Definition narrowed (s : option string) : string :=
  match s with
  | Some s => s
  | None => ""
  end.

Section Handler.

Variable NumberToString : number -> string.

(** The [catch (err)] of the handler (lines 158-169). *)
Definition unexpected (err : exn) : io Response :=
  io_ret (jsonResponse
            (UnexpectedBody "Unexpected server error."
               (match err_message err with
                | Some m => m
                | None => "Unknown error"
                end))
            500).

(** [await request.json()] in its own [try], the [catch] giving no body. *)
Definition read_body (request : Request) : io (option value) :=
  io_catch (v <~ perform ReadRequestBody (req_json request) ;; io_ret (Some v))
           (fun _ => io_ret None).

(** [await upstream.text().catch(() => "")] *)
Definition read_text (upstream : UpstreamResponse) : io string :=
  io_catch (perform ReadUpstreamText (up_text upstream))
           (fun _ => io_ret "").

(** What is answered once the upstream has responded (lines 101-157). *)
Definition respond (upstream : UpstreamResponse) : io Response :=
  if negb (up_ok upstream) then
    text <~ read_text upstream ;;
    io_ret (jsonResponse
              (UpstreamBody "Upstream Pushshift bridge error."
                 (up_status upstream) (slice0 500 text))
              502)
  else
    upstreamJson <~ perform ReadUpstreamJson (up_json upstream) ;;
    comments <~ io_lift (comments_of NumberToString upstreamJson) ;;
    io_ret (jsonResponse (OkBody true (length comments) comments) 200).

(** The steps after the credential check (lines 67-157). *)
Definition serve (cfg : Config) (net : Network) (request : Request) : io Response :=
  rawBody <~ read_body request ;;
  match rawBody with
  | None =>
      io_ret (jsonResponse (ErrorBody "Request body must be valid JSON.") 400)
  | Some rawBody =>
      match RequestSchema_safeParse rawBody with
      | Invalid issues =>
          io_ret (jsonResponse (InvalidBody "Invalid request body." issues) 400)
      | Valid body =>
          let url := narrowed (BRIDGE_URL cfg) in
          upstream <~ perform (CallUpstream url body) (net url body) ;;
          respond upstream
      end
  end.

(** [fetch(request)] (lines 33-170) *)
Definition fetch (cfg : Config) (net : Network) (request : Request) : io Response :=
  io_catch
    (if negb (String.eqb (req_method request) "POST") then
       io_ret (jsonResponse (ErrorBody "Method not allowed. Use POST.") 405)
     else if falsy (BRIDGE_URL cfg) then
       io_ret (jsonResponse
                 (ErrorBody "PUSHSHIFT_BRIDGE_URL is not configured on the server.")
                 500)
     else if falsy (API_KEY cfg) then
       io_ret (jsonResponse
                 (ErrorBody "PUSHSHIFT_MCP_KEY is not configured on the server.")
                 500)
     else
       let authHeader := req_x_mcp_key request in
       if falsy authHeader || strict_neq authHeader (API_KEY cfg) then
         io_ret (jsonResponse (ErrorBody "Unauthorised.") 401)
       else serve cfg net request)
    unexpected.

End Handler.

(* ===================================================================== *)
(** ** Sample data *)
(* ===================================================================== *)

(** [Number::toString] on the doubles that hold an integer below 10^21,
    where it is the plain decimal numeral. It instantiates the parameter
    in the sample calls, which coerce no other number to text. *)
Definition integral_NumberToString (x : number) : string :=
  match integer_value x with
  | Some z => NilZero.string_of_int (Z.to_int z)
  | None => ""
  end.

Definition sample_config : Config :=
  mkConfig (Some "https://bridge.example/search") (Some "s3cret").

Definition sample_body : value :=
  Obj [("subreddit", Str "movies"); ("query", Str "oscars");
       ("size", Num (number_of_Z 10))].

Definition sample_request : Request :=
  mkRequest "POST" (Some "s3cret") (Ok sample_body).

Definition answering (r : UpstreamResponse) : Network := fun _ _ => Ok r.

Definition upstream_json (v : value) : UpstreamResponse :=
  mkUpstream 200 (Ok "") (Ok v).

(* ===================================================================== *)
(** ** Vocabulary of the specification *)
(* ===================================================================== *)

(** Both secrets are configured: present and not empty. *)
Definition configured (cfg : Config) (url key : string) : Prop :=
  BRIDGE_URL cfg = Some url /\ url <> "" /\
  API_KEY cfg = Some key /\ key <> "".

(** A POST request that carries the configured key. *)
Definition authenticated (cfg : Config) (request : Request) : Prop :=
  req_method request = "POST" /\
  exists url key, configured cfg url key /\ req_x_mcp_key request = Some key.

(** An authenticated request whose body parses and validates to [rb]. *)
Definition valid_call (cfg : Config) (request : Request) (rb : RequestBody) : Prop :=
  authenticated cfg request /\
  exists rawBody,
    req_json request = Ok rawBody /\ RequestSchema_safeParse rawBody = Valid rb.

(** The upstream answers the forwarded request with [up]. *)
Definition upstream_answers (cfg : Config) (net : Network) (rb : RequestBody)
           (up : UpstreamResponse) : Prop :=
  net (narrowed (BRIDGE_URL cfg)) rb = Ok up.

(** The upstream answers with a success status and the JSON [payload]. *)
Definition upstream_payload (cfg : Config) (net : Network) (rb : RequestBody)
           (payload : value) : Prop :=
  exists up, upstream_answers cfg net rb up /\ up_ok up = true /\
             up_json up = Ok payload.

(** The effects of a call that goes through to the payload. *)
Definition full_trace (cfg : Config) (rb : RequestBody) : list Event :=
  [ReadRequestBody; CallUpstream (narrowed (BRIDGE_URL cfg)) rb; ReadUpstreamJson].

(** The value a payload holds under a key, [undefined] when it has none. *)
Definition under (payload : value) (k : string) : value :=
  match OptGet payload k with
  | Ok v => v
  | Throw _ => Undefined
  end.

Definition is_list (v : value) : bool :=
  match v with
  | Arr _ => true
  | _ => false
  end.

(** None of [comments], [data], [results] holds a list. *)
Definition no_list (payload : value) : bool :=
  negb (is_list (under payload "comments"))
  && negb (is_list (under payload "data"))
  && negb (is_list (under payload "results")).

(** Each of [comments], [data], [results] is missing or [null]. *)
Definition no_container (payload : value) : bool :=
  nullish (under payload "comments")
  && nullish (under payload "data")
  && nullish (under payload "results").

(** The requirements of the request schema, in the words of the
    specification: [subreddit] and [query] are non-empty text, [size] is
    omitted or an integer between 1 and 500, [before] and [after] are
    omitted or integers. *)
Definition nonempty_text (v : value) : bool :=
  match v with
  | Str s => negb (String.eqb s "")
  | _ => false
  end.

Definition integer_within (lo hi : option Z) (v : value) : bool :=
  match v with
  | Num x =>
      match integer_value x with
      | Some z =>
          match lo with Some k => k <=? z | None => true end
          && match hi with Some k => z <=? k | None => true end
      | None => false
      end
  | _ => false
  end.

Definition omitted (v : value) : bool :=
  match v with
  | Undefined => true
  | _ => false
  end.

Definition schema_fields : list string :=
  ["subreddit"; "query"; "size"; "before"; "after"].

Definition requirement (f : string) (v : value) : bool :=
  if String.eqb f "subreddit" then nonempty_text v
  else if String.eqb f "query" then nonempty_text v
  else if String.eqb f "size" then omitted v || integer_within (Some 1) (Some 500) v
  else omitted v || integer_within None None v.

Definition meets_schema (rawBody : value) : bool :=
  match rawBody with
  | Obj props => forallb (fun f => requirement f (field props f)) schema_fields
  | _ => false
  end.

(** The issues name the offending fields of an object body: a field of
    the schema fails its requirement exactly when an issue carries its
    path, and every issue carries the path of a field of the schema. A
    body that is not an object gets one issue at the root path. *)
Definition names_offenders (rawBody : value) (issues : list ZodIssue) : Prop :=
  match rawBody with
  | Obj props =>
      (forall f, In f schema_fields ->
                 (requirement f (field props f) = false
                  <-> exists i, In i issues /\ path i = [f]))
      /\ (forall i, In i issues -> exists f, In f schema_fields /\ path i = [f])
  | _ => issues = [mkIssue invalid_type []]
  end.

(** The item can be read: it is neither [null] nor [undefined]. *)
Definition readable (c : value) : bool := negb (nullish c).

(** [String(v)] is defined: no object with an own [toString] property is
    met, in [v] or in the arrays it is made of. *)
Fixpoint coercible (v : value) : bool :=
  match v with
  | Arr items => forallb coercible items
  | Obj props => negb (has_own "toString" props)
  | _ => true
  end.

(** A primitive or a missing value. *)
Definition primitive (v : value) : bool :=
  match v with
  | Arr _ | Obj _ => false
  | _ => true
  end.

(** The value the mapping turns into [body]: [c.body ?? c.selftext ?? ""]. *)
Definition body_source (c : value) : value :=
  if nullish (under c "body")
  then (if nullish (under c "selftext") then Str "" else under c "selftext")
  else under c "body".

(** The mapping returns on [c]: the item can be read and the five values
    it coerces to text can be coerced. *)
Definition item_ok (c : value) : bool :=
  readable c
  && coercible (under c "id")
  && coercible (under c "author")
  && coercible (body_source c)
  && coercible (under c "permalink")
  && coercible (under c "subreddit").

(** The declared type [NormalisedComment] (lines 22-30), as a check on a
    runtime value: the seven properties, in the order of the literal,
    [string], [string | null] or [number | null] as declared. *)
Definition is_string (v : value) : bool :=
  match v with Str _ => true | _ => false end.

Definition string_or_null (v : value) : bool :=
  match v with Str _ | Null => true | _ => false end.

Definition number_or_null (v : value) : bool :=
  match v with Num _ | Null => true | _ => false end.

Definition NormalisedComment (v : value) : bool :=
  match v with
  | Obj [(k1, id); (k2, author); (k3, body); (k4, score);
         (k5, created_utc); (k6, permalink); (k7, subreddit)] =>
      String.eqb k1 "id" && is_string id
      && String.eqb k2 "author" && string_or_null author
      && String.eqb k3 "body" && is_string body
      && String.eqb k4 "score" && number_or_null score
      && String.eqb k5 "created_utc" && number_or_null created_utc
      && String.eqb k6 "permalink" && string_or_null permalink
      && String.eqb k7 "subreddit" && string_or_null subreddit
  | _ => false
  end.

(** Induction on values through the elements of arrays. *)
Fixpoint value_array_ind (P : value -> Prop)
         (Hother : forall v, is_list v = false -> P v)
         (Harr : forall items, Forall P items -> P (Arr items))
         (v : value) {struct v} : P v :=
  match v with
  | Arr items =>
      Harr items
           ((fix all (l : list value) : Forall P l :=
               match l with
               | [] => Forall_nil P
               | x :: rest =>
                   Forall_cons x (value_array_ind Hother Harr x) (all rest)
               end) items)
  | Undefined => Hother Undefined eq_refl
  | Null => Hother Null eq_refl
  | Bool b => Hother (Bool b) eq_refl
  | Num n => Hother (Num n) eq_refl
  | Str s => Hother (Str s) eq_refl
  | Obj props => Hother (Obj props) eq_refl
  end.

Definition sample_rb : RequestBody :=
  mkRequestBody "movies" "oscars" (number_of_Z 10) None None.

(** What a field schema gives, against the requirement [req] on the
    field: valid data when the requirement holds, and otherwise issues,
    at least one, all at the path of the field. *)
Definition outcome {A : Type} (r : parsed A) (req : bool) (p : list string) : Prop :=
  match r with
  | Valid _ => req = true
  | Invalid issues =>
      req = false /\ issues <> [] /\ Forall (fun i => path i = p) issues
  end.

(** The five field results of [RequestSchema.safeParse] on an object. *)
Definition parse_subreddit (props : list (string * value)) : parsed string :=
  string_min 1 ["subreddit"] (field props "subreddit").
Definition parse_query (props : list (string * value)) : parsed string :=
  string_min 1 ["query"] (field props "query").
Definition parse_size (props : list (string * value)) : parsed number :=
  default (number_int (Some 1) (Some 500)) (Num (number_of_Z 50))
          ["size"] (field props "size").
Definition parse_before (props : list (string * value)) : parsed (option number) :=
  optional (number_int None None) ["before"] (field props "before").
Definition parse_after (props : list (string * value)) : parsed (option number) :=
  optional (number_int None None) ["after"] (field props "after").

Definition all_issues (props : list (string * value)) : list ZodIssue :=
  issues_of (parse_subreddit props) ++ issues_of (parse_query props)
  ++ issues_of (parse_size props) ++ issues_of (parse_before props)
  ++ issues_of (parse_after props).

(* ===================================================================== *)
(** ** Sample calls *)
(* ===================================================================== *)

Definition payload_text_comments : value := Obj [("comments", Str "none")].

Definition payload_null_containers : value :=
  Obj [("comments", Null); ("total", Num (number_of_Z 0))].

Definition payload_null_item : value := Obj [("comments", Arr [Null])].

(** Fields of the wrong type, a bare string and an array as items. *)
Definition mistyped_items : list value :=
  [Obj [("id", Num (number_of_Z 7)); ("author", Bool false);
        ("body", Arr [Str "a"; Null; Str "b"]); ("score", Str "5");
        ("created_utc", Null); ("created", Obj []);
        ("permalink", Obj [("href", Str "/r/movies")])];
   Str "not an object";
   Arr []].

Definition item_a : value := Obj [("id", Str "a"); ("body", Str "from comments")].
Definition item_b : value := Obj [("id", Str "b"); ("body", Str "from data")].
Definition item_c : value := Obj [("id", Str "c"); ("body", Str "from results")].

Definition payload_text_then_lists : value :=
  Obj [("comments", Str "unavailable"); ("data", Arr [item_b]);
       ("results", Arr [item_c])].

Definition payload_three_lists : value :=
  Obj [("results", Arr [item_c]); ("data", Arr [item_b]);
       ("comments", Arr [item_a])].

Definition item_selftext : value := Obj [("selftext", Str "hello")].

Definition record_selftext : value :=
  Obj [("id", Str ""); ("author", Null); ("body", Str "hello");
       ("score", Null); ("created_utc", Null); ("permalink", Null);
       ("subreddit", Null)].

Definition item_text_score : value :=
  Obj [("score", Str "5"); ("created_utc", Str "1700000000");
       ("created", Num (number_of_Z 1700000000))].

Definition record_text_score : value :=
  Obj [("id", Str ""); ("author", Null); ("body", Str "");
       ("score", Null); ("created_utc", Num (number_of_Z 1700000000));
       ("permalink", Null); ("subreddit", Null)].

Definition offline : Network := fun _ _ => Throw (mkExn None).

Definition request_wrong_key : Request :=
  mkRequest "POST" (Some "s3cret ") (Throw (mkExn None)).

Definition config_empty_key : Config :=
  mkConfig (Some "https://bridge.example/search") (Some "").

Definition request_empty_key : Request :=
  mkRequest "POST" (Some "") (Ok sample_body).

Definition long_text : string :=
  string_of_list_ascii (repeat "e"%char 620).

Definition upstream_503 : UpstreamResponse :=
  mkUpstream 503 (Ok long_text) (Throw (mkExn None)).

(** [{"subreddit": "", "size": 0.5}] *)
Definition body_invalid : value :=
  Obj [("subreddit", Str "");
       ("size", Num (S754_finite false 4503599627370496 (-53)))].

Definition issues_invalid : list ZodIssue :=
  [mkIssue too_small ["subreddit"]; mkIssue invalid_type ["query"];
   mkIssue invalid_type ["size"]; mkIssue too_small ["size"]].

Definition request_invalid : Request :=
  mkRequest "POST" (Some "s3cret") (Ok body_invalid).

Definition payload_two_items : value :=
  Obj [("data",
        Arr [Obj [("id", Num (number_of_Z 2)); ("author", Str "ann");
                  ("score", Num (number_of_Z 12))];
             Obj [("id", Num (number_of_Z 1)); ("subreddit", Str "movies");
                  ("created", Num (number_of_Z 1700000000))]])].

Definition records_two_items : list value :=
  [Obj [("id", Str "2"); ("author", Str "ann"); ("body", Str "");
        ("score", Num (number_of_Z 12)); ("created_utc", Null);
        ("permalink", Null); ("subreddit", Null)];
   Obj [("id", Str "1"); ("author", Null); ("body", Str "");
        ("score", Null); ("created_utc", Num (number_of_Z 1700000000));
        ("permalink", Null); ("subreddit", Str "movies")]].

(* ===================================================================== *)
(** ** Vocabulary of the further properties *)
(* ===================================================================== *)

(** The status that goes with each document the handler answers with. *)
Definition well_formed (resp : Response) : Prop :=
  match body resp with
  | ErrorBody _ =>
      status resp = 400 \/ status resp = 401 \/ status resp = 405
      \/ status resp = 500
  | InvalidBody _ issues => status resp = 400 /\ issues <> []
  | UpstreamBody _ _ detail =>
      status resp = 502 /\ (String.length detail <= 500)%nat
  | UnexpectedBody _ _ => status resp = 500
  | OkBody ok count comments =>
      status resp = 200 /\ ok = true /\ count = length comments
      /\ Forall (fun r => NormalisedComment r = true) comments
  end.

(** The detail of the catch-all answer for a thrown value. *)
Definition detail_of (err : exn) : string :=
  match err_message err with
  | Some m => m
  | None => "Unknown error"
  end.

(** The value that [map] is called on: the first of [comments], [data],
    [results] that is neither missing nor [null]; [None] when there is
    none. *)
Definition container (payload : value) : option value :=
  if negb (nullish (under payload "comments")) then Some (under payload "comments")
  else if negb (nullish (under payload "data")) then Some (under payload "data")
  else if negb (nullish (under payload "results")) then Some (under payload "results")
  else None.

(** The properties of an item that the mapping reads. *)
Definition item_keys : list string :=
  ["id"; "author"; "body"; "selftext"; "score"; "created_utc"; "created";
   "permalink"; "subreddit"].

Definition nullable_text_fields : list string :=
  ["author"; "permalink"; "subreddit"].

(* ===================================================================== *)
(** ** Sample calls for the further properties *)
(* ===================================================================== *)

Definition config_unset : Config := mkConfig None None.

Definition request_get : Request :=
  mkRequest "GET" None (Throw (mkExn None)).

Definition request_not_json : Request :=
  mkRequest "POST" (Some "s3cret")
            (Throw (mkExn (Some "Unexpected end of JSON input"))).

Definition unreachable : Network :=
  fun _ _ => Throw (mkExn (Some "fetch failed")).

Definition upstream_html : UpstreamResponse :=
  mkUpstream 200 (Ok "<html></html>")
             (Throw (mkExn (Some "Unexpected token '<'"))).

Definition upstream_404 : UpstreamResponse :=
  mkUpstream 404 (Ok "no such subreddit") (Throw (mkExn None)).

Definition payload_results_only : value :=
  Obj [("comments", Null); ("results", Arr [item_c])].

Definition payload_bad_second : value :=
  Obj [("data", Arr [item_b; Null; item_c])].

Definition two_items : list value :=
  [Obj [("id", Num (number_of_Z 2)); ("author", Str "ann");
        ("score", Num (number_of_Z 12))];
   Obj [("id", Num (number_of_Z 1)); ("subreddit", Str "movies");
        ("created", Num (number_of_Z 1700000000))]].

Definition record_a : value :=
  Obj [("id", Str "a"); ("author", Null); ("body", Str "from comments");
       ("score", Null); ("created_utc", Null); ("permalink", Null);
       ("subreddit", Null)].

Definition item_falsy_fields : value :=
  Obj [("author", Bool false); ("permalink", Str "");
       ("subreddit", Num (number_of_Z 0))].

Definition record_falsy_fields : value :=
  Obj [("id", Str ""); ("author", Str "false"); ("body", Str "");
       ("score", Null); ("created_utc", Null); ("permalink", Str "");
       ("subreddit", Str "0")].

Definition item_a_more : value :=
  Obj [("ups", Num (number_of_Z 3)); ("id", Str "a");
       ("body", Str "from comments"); ("toString", Null)].

Definition sample_props : list (string * value) :=
  [("subreddit", Str "movies"); ("query", Str "oscars");
   ("size", Num (number_of_Z 10))].

Definition sample_props_more : list (string * value) :=
  [("limit", Num (number_of_Z 900)); ("query", Str "oscars");
   ("subreddit", Str "movies"); ("size", Num (number_of_Z 10));
   ("sort", Str "desc")].

(** [{"subreddit": "movies", "query": "oscars", "after": 1700000000}] *)
Definition body_with_after : value :=
  Obj [("subreddit", Str "movies"); ("query", Str "oscars");
       ("after", Num (number_of_Z 1700000000))].

Definition rb_with_after : RequestBody :=
  mkRequestBody "movies" "oscars" (number_of_Z 50) None
                (Some (number_of_Z 1700000000)).

(* ===================================================================== *)
(** ** Properties *)
(* ===================================================================== *)

(** *** Strings *)

Lemma slice0_length (n : nat) (text : string) :
  (String.length (slice0 n text) <= n)%nat.
Proof.
  unfold slice0. revert text.
  induction n as [|n IH]; intros [|c text]; simpl; auto with arith.
Qed.

Lemma slice0_prefix (n : nat) (text : string) :
  String.prefix (slice0 n text) text = true.
Proof.
  unfold slice0. revert text.
  induction n as [|n IH]; intros [|c text]; simpl; auto.
  destruct (ascii_dec c c) as [_|ne]; [apply IH | now destruct ne].
Qed.

Lemma slice0_short (n : nat) (text : string) :
  (String.length text <= n)%nat -> slice0 n text = text.
Proof.
  unfold slice0. revert text.
  induction n as [|n IH]; intros [|c text]; simpl; intros Hle; auto.
  - inversion Hle.
  - f_equal. apply IH. auto with arith.
Qed.

Lemma falsy_nonempty (s : string) : s <> "" -> falsy (Some s) = false.
Proof. intros Hs. simpl. now apply String.eqb_neq. Qed.

Lemma strict_neq_same (k : string) : strict_neq (Some k) (Some k) = false.
Proof. simpl. now rewrite String.eqb_refl. Qed.

Lemma strict_neq_other (h : option string) (k : string) :
  h <> Some k -> strict_neq h (Some k) = true.
Proof.
  intros Hne. destruct h as [h|]; simpl; auto.
  apply negb_true_iff, String.eqb_neq. congruence.
Qed.

Section Properties.

Variable NumberToString : number -> string.

(** *** The stages of the handler *)

Lemma fetch_authenticated cfg net request :
  authenticated cfg request ->
  fetch NumberToString cfg net request
  = io_catch (serve NumberToString cfg net request) unexpected.
Proof.
  intros [Hm (url & key & (Hu & Hune & Hk & Hkne) & Hh)].
  unfold fetch. rewrite Hm, Hu, Hk, Hh. simpl String.eqb. cbv iota. simpl negb.
  cbv iota.
  rewrite (falsy_nonempty Hune), (falsy_nonempty Hkne), strict_neq_same.
  reflexivity.
Qed.

Lemma serve_valid cfg net request rb :
  valid_call cfg request rb ->
  serve NumberToString cfg net request
  = io_bind ([ReadRequestBody;
              CallUpstream (narrowed (BRIDGE_URL cfg)) rb],
             net (narrowed (BRIDGE_URL cfg)) rb)
            (respond NumberToString).
Proof.
  intros [_ (rawBody & Hj & Hp)].
  unfold serve, read_body. rewrite Hj. simpl. rewrite Hp.
  unfold perform, io_bind.
  destruct (net (narrowed (BRIDGE_URL cfg)) rb) as [up|e]; [|reflexivity].
  destruct (respond NumberToString up) as [t r]. reflexivity.
Qed.

Lemma fetch_payload cfg net request rb payload :
  valid_call cfg request rb ->
  upstream_payload cfg net rb payload ->
  fetch NumberToString cfg net request
  = (full_trace cfg rb,
     Ok match comments_of NumberToString payload with
        | Ok comments => jsonResponse (OkBody true (length comments) comments) 200
        | Throw err =>
            jsonResponse (UnexpectedBody "Unexpected server error."
                            (match err_message err with
                             | Some m => m
                             | None => "Unknown error"
                             end)) 500
        end).
Proof.
  intros Hv (up & Hnet & Hok & Hjson).
  rewrite (fetch_authenticated net (proj1 Hv)), (serve_valid net Hv).
  unfold upstream_answers in Hnet. rewrite Hnet.
  unfold io_bind at 1, respond. rewrite Hok, Hjson. simpl.
  destruct (comments_of NumberToString payload); reflexivity.
Qed.

(** *** Authentication *)

(** C6: with both secrets configured, a POST request whose [x-mcp-key]
    header is missing or differs from the configured key is answered 401;
    the answer does not depend on the body or on the network, and the
    trace is empty: the body is not read and the upstream is not called. *)
Theorem C6_unauthorised cfg net request url key :
  req_method request = "POST" ->
  configured cfg url key ->
  req_x_mcp_key request <> Some key ->
  fetch NumberToString cfg net request
  = ([], Ok (jsonResponse (ErrorBody "Unauthorised.") 401)).
Proof.
  intros Hm (Hu & Hune & Hk & Hkne) Hh.
  unfold fetch. rewrite Hm, Hu, Hk. simpl String.eqb. simpl negb. cbv iota.
  rewrite (falsy_nonempty Hune), (falsy_nonempty Hkne).
  rewrite (strict_neq_other Hh), orb_true_r. reflexivity.
Qed.

(** C10: a POST request is answered 500 when the bridge URL or the API
    key is the empty string (or is absent), whatever the credential
    header holds: the check comes before the header is looked at, so the
    answer is never 401; nothing is read and nothing is called. *)
Theorem C10_misconfigured cfg net request :
  req_method request = "POST" ->
  BRIDGE_URL cfg = Some "" \/ API_KEY cfg = Some "" \/
  BRIDGE_URL cfg = None \/ API_KEY cfg = None ->
  exists error,
    fetch NumberToString cfg net request
    = ([], Ok (jsonResponse (ErrorBody error) 500)).
Proof.
  intros Hm Hcfg. unfold fetch. rewrite Hm. simpl String.eqb. simpl negb. cbv iota.
  destruct (falsy (BRIDGE_URL cfg)) eqn:Hu; [eexists; reflexivity|].
  destruct (falsy (API_KEY cfg)) eqn:Hk; [eexists; reflexivity|].
  exfalso. destruct Hcfg as [H|[H|[H|H]]]; rewrite H in *; discriminate.
Qed.

(** *** Upstream errors *)

(** C7: when the upstream answers a valid call with a status outside
    200-299, the response is 502 and carries that status and the first
    500 characters of the upstream body (the empty text when the body
    cannot be read). *)
Theorem C7_upstream_error cfg net request rb up :
  valid_call cfg request rb ->
  upstream_answers cfg net rb up ->
  ~ (200 <= up_status up <= 299) ->
  exists detail,
    fetch NumberToString cfg net request
    = ([ReadRequestBody; CallUpstream (narrowed (BRIDGE_URL cfg)) rb;
        ReadUpstreamText],
       Ok (jsonResponse
             (UpstreamBody "Upstream Pushshift bridge error." (up_status up) detail)
             502))
    /\ (String.length detail <= 500)%nat
    /\ detail = slice0 500 (match up_text up with Ok t => t | Throw _ => "" end)
    /\ match up_text up with
       | Ok t => String.prefix detail t = true
       | Throw _ => detail = ""
       end.
Proof.
  intros Hv Hnet Hst.
  assert (Hok : up_ok up = false).
  { unfold up_ok. apply andb_false_iff.
    destruct (Z.leb_spec 200 (up_status up)); [right|left; reflexivity].
    apply Z.leb_gt. lia. }
  exists (slice0 500 (match up_text up with Ok t => t | Throw _ => "" end)).
  split; [|split; [apply slice0_length|split; [reflexivity|]]].
  - rewrite (fetch_authenticated net (proj1 Hv)), (serve_valid net Hv).
    unfold upstream_answers in Hnet. rewrite Hnet.
    unfold io_bind at 1, respond, read_text. rewrite Hok. simpl.
    destruct (up_text up); reflexivity.
  - destruct (up_text up); [apply slice0_prefix | reflexivity].
Qed.

(** *** Reading the payload and the items *)

Lemma OptGet_under (o : value) (k : string) : OptGet o k = Ok (under o k).
Proof. unfold under. destruct o; reflexivity. Qed.

Lemma Get_under (o : value) (k : string) :
  readable o = true -> Get o k = Ok (under o k).
Proof. unfold under. destruct o; try discriminate; reflexivity. Qed.

Lemma rawComments_under (payload : value) :
  rawComments payload
  = Ok (if nullish (under payload "comments") then
          if nullish (under payload "data") then
            if nullish (under payload "results") then Arr []
            else under payload "results"
          else under payload "data"
        else under payload "comments").
Proof.
  unfold rawComments, coalesce. rewrite !OptGet_under. simpl.
  destruct (nullish (under payload "comments")); [|reflexivity].
  destruct (nullish (under payload "data")); [|reflexivity].
  destruct (nullish (under payload "results")); reflexivity.
Qed.

Lemma mapM_Forall2 {A B : Type} (f : A -> result B) (xs : list A) (ys : list B) :
  mapM f xs = Ok ys <-> Forall2 (fun x y => f x = Ok y) xs ys.
Proof.
  revert ys. induction xs as [|x xs IH]; intros ys; simpl.
  - split; intros H; [injection H as <-; constructor | inversion H; reflexivity].
  - split.
    + destruct (f x) as [y|e] eqn:Hx; simpl; [|discriminate].
      destruct (mapM f xs) as [ys'|e] eqn:Hxs; simpl; [|discriminate].
      intros H; injection H as <-. constructor; [assumption|now apply IH].
    + intros H. inversion H as [|x' y l l' Hy Hl]; subst.
      rewrite Hy. simpl. apply IH in Hl. rewrite Hl. reflexivity.
Qed.

(** The mapping on an item that can be read, with the property reads
    resolved. *)
Lemma normalise_readable (c : value) :
  readable c = true ->
  normalise NumberToString c
  = (id <- ToString NumberToString
             (if nullish (under c "id") then Str "" else under c "id") ;;
     author <- text_or_null NumberToString (under c "author") ;;
     body <- ToString NumberToString (body_source c) ;;
     permalink <- text_or_null NumberToString (under c "permalink") ;;
     subreddit <- text_or_null NumberToString (under c "subreddit") ;;
     Ok (Obj [("id", Str id); ("author", author); ("body", Str body);
              ("score",
               if is_number (under c "score") then under c "score" else Null);
              ("created_utc",
               if is_number (under c "created_utc") then under c "created_utc"
               else if is_number (under c "created") then under c "created"
                    else Null);
              ("permalink", permalink); ("subreddit", subreddit)])).
Proof.
  intros Hc. unfold normalise.
  rewrite !(fun k => Get_under c k Hc). cbn [rbind].
  replace (coalesce (under c "id") (Ok (Str "")))
    with (Ok (if nullish (under c "id") then Str "" else under c "id"))
    by (unfold coalesce; destruct (nullish (under c "id")); reflexivity).
  replace (coalesce (under c "body")
             (coalesce (under c "selftext") (Ok (Str ""))))
    with (Ok (body_source c))
    by (unfold coalesce, body_source; destruct (nullish (under c "body"));
        [destruct (nullish (under c "selftext"))|]; reflexivity).
  cbn [rbind].
  destruct (ToString NumberToString
              (if nullish (under c "id") then Str "" else under c "id"));
    cbn [rbind]; [|reflexivity].
  destruct (text_or_null NumberToString (under c "author"));
    cbn [rbind]; [|reflexivity].
  destruct (ToString NumberToString (body_source c)); cbn [rbind]; [|reflexivity].
  destruct (is_number (under c "created_utc")); cbn [rbind];
    (destruct (text_or_null NumberToString (under c "permalink"));
     cbn [rbind]; [|reflexivity]);
    (destruct (text_or_null NumberToString (under c "subreddit"));
     cbn [rbind]; reflexivity).
Qed.

Lemma normalise_unreadable (c : value) :
  readable c = false -> returns (normalise NumberToString c) = false.
Proof. destruct c; try discriminate; reflexivity. Qed.

Lemma normalise_inv (c r : value) :
  normalise NumberToString c = Ok r ->
  readable c = true /\
  exists id author body permalink subreddit,
    ToString NumberToString
      (if nullish (under c "id") then Str "" else under c "id") = Ok id /\
    text_or_null NumberToString (under c "author") = Ok author /\
    ToString NumberToString (body_source c) = Ok body /\
    text_or_null NumberToString (under c "permalink") = Ok permalink /\
    text_or_null NumberToString (under c "subreddit") = Ok subreddit /\
    r = Obj [("id", Str id); ("author", author); ("body", Str body);
             ("score",
              if is_number (under c "score") then under c "score" else Null);
             ("created_utc",
              if is_number (under c "created_utc") then under c "created_utc"
              else if is_number (under c "created") then under c "created"
                   else Null);
             ("permalink", permalink); ("subreddit", subreddit)].
Proof.
  intros Hn.
  destruct (readable c) eqn:Hc.
  2:{ apply normalise_unreadable in Hc. rewrite Hn in Hc. discriminate. }
  split; [reflexivity|].
  rewrite (normalise_readable c Hc) in Hn.
  destruct (ToString NumberToString
              (if nullish (under c "id") then Str "" else under c "id"))
    as [id|]; cbn [rbind] in Hn; [|discriminate].
  destruct (text_or_null NumberToString (under c "author")) as [author|];
    cbn [rbind] in Hn; [|discriminate].
  destruct (ToString NumberToString (body_source c)) as [body|];
    cbn [rbind] in Hn; [|discriminate].
  destruct (text_or_null NumberToString (under c "permalink")) as [permalink|];
    cbn [rbind] in Hn; [|discriminate].
  destruct (text_or_null NumberToString (under c "subreddit")) as [subreddit|];
    cbn [rbind] in Hn; [|discriminate].
  exists id, author, body, permalink, subreddit.
  injection Hn as <-. repeat split; reflexivity.
Qed.

(** *** Coercion to text *)

Lemma ToString_cons (x : value) (rest : list value) :
  ToString NumberToString (Arr (x :: rest))
  = (s <- (if nullish x then Ok "" else ToString NumberToString x) ;;
     match rest with
     | [] => Ok s
     | _ :: _ => r <- ToString NumberToString (Arr rest) ;; Ok (s ++ "," ++ r)
     end).
Proof. reflexivity. Qed.

Lemma ToString_returns (v : value) :
  returns (ToString NumberToString v) = coercible v.
Proof.
  induction v as [v Hv | items IH] using value_array_ind.
  - destruct v as [| |[|]| | | |props]; try discriminate; try reflexivity.
    simpl. destruct (has_own "toString" props); reflexivity.
  - induction IH as [|x rest Hx _ IHrest]; [reflexivity|].
    rewrite ToString_cons. cbn [coercible forallb] in *.
    rewrite <- Hx, <- IHrest.
    assert (Hnull : nullish x = true -> returns (ToString NumberToString x) = true)
      by (destruct x; try discriminate; reflexivity).
    destruct (nullish x).
    + rewrite Hnull by reflexivity. cbn [rbind].
      destruct rest; [reflexivity|].
      destruct (ToString NumberToString (Arr (v :: rest))); reflexivity.
    + destruct (ToString NumberToString x); cbn [rbind returns andb]; [|reflexivity].
      destruct rest; [reflexivity|].
      destruct (ToString NumberToString (Arr (v :: rest))); reflexivity.
Qed.

Lemma text_or_null_returns (v : value) :
  returns (text_or_null NumberToString v) = coercible v.
Proof.
  unfold text_or_null. destruct (nullish v) eqn:Hv.
  - destruct v; try discriminate; reflexivity.
  - rewrite <- ToString_returns.
    destruct (ToString NumberToString v); reflexivity.
Qed.

Lemma primitive_coercible (v : value) : primitive v = true -> coercible v = true.
Proof. destruct v; try discriminate; reflexivity. Qed.

Lemma normalise_returns (c : value) :
  returns (normalise NumberToString c) = item_ok c.
Proof.
  unfold item_ok. destruct (readable c) eqn:Hc.
  2:{ now apply normalise_unreadable. }
  rewrite (normalise_readable c Hc).
  rewrite <- (ToString_returns (under c "id")), <- (ToString_returns (body_source c)),
    <- !text_or_null_returns.
  assert (Hid : returns (ToString NumberToString
                           (if nullish (under c "id") then Str "" else under c "id"))
                = returns (ToString NumberToString (under c "id"))).
  { destruct (under c "id"); reflexivity. }
  rewrite <- Hid.
  destruct (ToString NumberToString
              (if nullish (under c "id") then Str "" else under c "id"));
    cbn [rbind returns andb]; [|reflexivity].
  destruct (text_or_null NumberToString (under c "author"));
    cbn [rbind returns andb]; [|reflexivity].
  destruct (ToString NumberToString (body_source c));
    cbn [rbind returns andb]; [|reflexivity].
  destruct (text_or_null NumberToString (under c "permalink"));
    cbn [rbind returns andb]; [|reflexivity].
  destruct (text_or_null NumberToString (under c "subreddit")); reflexivity.
Qed.

Lemma returns_Ok {A : Type} (m : result A) :
  returns m = true <-> exists a, m = Ok a.
Proof.
  destruct m; simpl; split; intros H; eauto; try discriminate.
  now destruct H.
Qed.

Lemma mapM_returns (items : list value) :
  returns (mapM (normalise NumberToString) items) = forallb item_ok items.
Proof.
  induction items as [|c items IH]; [reflexivity|].
  cbn [mapM forallb]. rewrite <- normalise_returns, <- IH.
  destruct (normalise NumberToString c); cbn [rbind returns andb]; [|reflexivity].
  destruct (mapM (normalise NumberToString) items); reflexivity.
Qed.

Lemma text_or_null_shape (v r : value) :
  text_or_null NumberToString v = Ok r -> string_or_null r = true.
Proof.
  unfold text_or_null. destruct (nullish v).
  - now intros [= <-].
  - destruct (ToString NumberToString v); cbn [rbind]; [|discriminate].
    now intros [= <-].
Qed.

Lemma normalise_shape (c r : value) :
  normalise NumberToString c = Ok r -> NormalisedComment r = true.
Proof.
  intros Hn. apply normalise_inv in Hn.
  destruct Hn as (_ & id & author & body & permalink & subreddit
                  & _ & Ha & _ & Hp & Hs & ->).
  cbn [NormalisedComment]. rewrite !String.eqb_refl. cbn [andb is_string].
  rewrite (text_or_null_shape _ Ha), (text_or_null_shape _ Hp),
    (text_or_null_shape _ Hs).
  assert (Hnum : forall v w, number_or_null (if is_number v then v else w)
                             = (is_number v || number_or_null w)).
  { intros v w. destruct v; reflexivity. }
  rewrite !Hnum. cbn [number_or_null]. rewrite !orb_true_r. reflexivity.
Qed.

Lemma item_ok_primitive (c : value) :
  readable c = true ->
  (forall k, primitive (under c k) = true) ->
  item_ok c = true.
Proof.
  intros Hc Hp. unfold item_ok, body_source. rewrite Hc.
  assert (Hk : forall k, coercible (under c k) = true)
    by (intros k; apply primitive_coercible, Hp).
  destruct (nullish (under c "body")); [destruct (nullish (under c "selftext"))|];
    rewrite !Hk; reflexivity.
Qed.

(** *** The normaliser *)

(** C1, amended: when each of [comments], [data] and [results] is
    missing or [null] in the payload of a valid call, the normalised
    list is empty and the response is 200 with [count] 0. *)
Theorem C1_no_container cfg net request rb payload :
  valid_call cfg request rb ->
  upstream_payload cfg net rb payload ->
  no_container payload = true ->
  comments_of NumberToString payload = Ok [] /\
  fetch NumberToString cfg net request
  = (full_trace cfg rb, Ok (jsonResponse (OkBody true 0 []) 200)).
Proof.
  intros Hv Hup Hno.
  assert (Hc : comments_of NumberToString payload = Ok []).
  { unfold comments_of. rewrite rawComments_under.
    unfold no_container in Hno. apply andb_prop in Hno as [Hno Hr].
    apply andb_prop in Hno as [Hc Hd]. rewrite Hc, Hd, Hr. reflexivity. }
  split; [exact Hc|].
  rewrite (fetch_payload Hv Hup), Hc. reflexivity.
Qed.

(** C2, amended: the mapping returns a record of the declared shape on
    every item that can be read (any value but [null]) and whose [id],
    [author], [body] (or else [selftext]), [permalink] and [subreddit]
    can be coerced to text, whatever [score], [created_utc] and
    [created] hold; a list of such items is mapped without failure. *)
Theorem C2_mapping_defined (items : list value) :
  (forall c, In c items -> item_ok c = true) ->
  exists comments,
    mapM (normalise NumberToString) items = Ok comments /\
    Forall2 (fun c r => normalise NumberToString c = Ok r
                        /\ NormalisedComment r = true) items comments.
Proof.
  intros Hok.
  assert (Hret : returns (mapM (normalise NumberToString) items) = true).
  { rewrite mapM_returns. apply forallb_forall. exact Hok. }
  apply returns_Ok in Hret as [comments Hm]. exists comments. split; [exact Hm|].
  apply mapM_Forall2 in Hm.
  induction Hm as [|c r items comments Hc _ IH]; constructor.
  - split; [exact Hc | exact (normalise_shape _ Hc)].
  - apply IH. intros c' Hin. apply Hok. now right.
Qed.

(** C3, amended: a list under [comments] is the one that is normalised,
    whatever [data] and [results] hold; when [comments] is missing or
    [null], a list under [data] is the one that is normalised, whatever
    [results] holds. *)
Theorem C3_container_priority (payload : value) (items : list value) :
  under payload "comments" = Arr items \/
  (nullish (under payload "comments") = true /\ under payload "data" = Arr items) ->
  rawComments payload = Ok (Arr items) /\
  comments_of NumberToString payload = mapM (normalise NumberToString) items.
Proof.
  intros H.
  assert (Hraw : rawComments payload = Ok (Arr items)).
  { rewrite rawComments_under.
    destruct H as [Hc|[Hc Hd]]; [rewrite Hc|rewrite Hc, Hd]; reflexivity. }
  split; [exact Hraw|]. unfold comments_of. rewrite Hraw. reflexivity.
Qed.

(** C4: the [body] of a record is text: the item's [body] coerced to
    text when it is neither missing nor [null], else its [selftext]
    coerced to text when that is neither missing nor [null], else the
    empty text. *)
Theorem C4_body_fallback (c r : value) :
  normalise NumberToString c = Ok r ->
  exists text,
    under r "body" = Str text /\
    (if nullish (under c "body") then
       if nullish (under c "selftext") then text = ""
       else ToString NumberToString (under c "selftext") = Ok text
     else ToString NumberToString (under c "body") = Ok text).
Proof.
  intros Hn. apply normalise_inv in Hn.
  destruct Hn as (_ & id & author & body & permalink & subreddit
                  & _ & _ & Hb & _ & _ & ->).
  exists body. split; [reflexivity|].
  unfold body_source in Hb.
  destruct (nullish (under c "body")); [|exact Hb].
  destruct (nullish (under c "selftext")); [|exact Hb].
  simpl in Hb. now injection Hb as <-.
Qed.

(** C5: the [score] of a record is the item's [score] when that is a
    number and [null] otherwise; its [created_utc] is the item's
    [created_utc] when that is a number, else the item's [created] when
    that is a number, else [null]. *)
Theorem C5_numeric_fields (c r : value) :
  normalise NumberToString c = Ok r ->
  under r "score"
  = match under c "score" with
    | Num n => Num n
    | _ => Null
    end
  /\ under r "created_utc"
     = match under c "created_utc" with
       | Num n => Num n
       | _ => match under c "created" with
              | Num m => Num m
              | _ => Null
              end
       end.
Proof.
  intros Hn. apply normalise_inv in Hn.
  destruct Hn as (_ & id & author & body & permalink & subreddit
                  & _ & _ & _ & _ & _ & ->).
  split.
  - change (under (Obj _) "score")
      with (if is_number (under c "score") then under c "score" else Null).
    destruct (under c "score"); reflexivity.
  - change (under (Obj _) "created_utc")
      with (if is_number (under c "created_utc") then under c "created_utc"
            else if is_number (under c "created") then under c "created"
                 else Null).
    destruct (under c "created_utc"); try reflexivity;
      destruct (under c "created"); reflexivity.
Qed.

(** C9: every record of the output holds the seven properties [id],
    [author], [body], [score], [created_utc], [permalink], [subreddit],
    each of its declared type or [null], and the output lists the
    records of the items of the upstream list, one for one, in order. *)
Theorem C9_records_and_order (payload : value) (comments : list value) :
  comments_of NumberToString payload = Ok comments ->
  exists items,
    rawComments payload = Ok (Arr items) /\
    length comments = length items /\
    Forall2 (fun c r => normalise NumberToString c = Ok r) items comments /\
    Forall (fun r => NormalisedComment r = true) comments.
Proof.
  unfold comments_of. destruct (rawComments payload) as [raw|] eqn:Hraw;
    cbn [rbind]; [|discriminate].
  destruct raw as [| | | | |items|]; try discriminate. cbn [call_map].
  intros Hm. exists items. apply mapM_Forall2 in Hm.
  split; [reflexivity|]. split; [symmetry; exact (Forall2_length Hm)|].
  split; [exact Hm|]. clear Hraw.
  induction Hm as [|c r items' comments' Hc _ IH]; constructor.
  - exact (normalise_shape _ Hc).
  - exact IH.
Qed.

End Properties.

(** *** The request schema *)

Lemma opp_mod_zero (m : positive) (d : Z) :
  Z.pos m mod d = 0 -> Z.neg m mod d = 0.
Proof.
  intros H. change (Z.neg m) with (- Z.pos m).
  destruct (Z.eq_dec d 0) as [->|Hd].
  - rewrite Z.mod_0_r in *. lia.
  - now apply Z.mod_opp_l_z.
Qed.

Lemma integer_value_exact (s : bool) (m : positive) (e z : Z) :
  integer_value (S754_finite s m e) = Some z ->
  if 0 <=? e then z = (if s then Z.neg m else Z.pos m) * 2 ^ e
  else (if s then Z.neg m else Z.pos m) = z * 2 ^ (- e).
Proof.
  unfold integer_value. destruct (0 <=? e) eqn:He.
  - now intros [= <-].
  - destruct (Z.pos m mod 2 ^ (- e) =? 0) eqn:Hmod; [|discriminate].
    intros [= <-]. apply Z.eqb_eq in Hmod.
    assert (Hd : 2 ^ (- e) <> 0) by (apply Z.pow_nonzero; lia).
    assert (Hs : (if s then Z.neg m else Z.pos m) mod 2 ^ (- e) = 0)
      by (destruct s; [now apply opp_mod_zero | exact Hmod]).
    pose proof (Z.div_mod (if s then Z.neg m else Z.pos m) (2 ^ (- e)) Hd) as Hdm.
    rewrite Hs in Hdm. lia.
Qed.

Lemma lt_int_integer (x : number) (z k : Z) :
  integer_value x = Some z -> lt_int x k = (z <? k).
Proof.
  destruct x as [s|s| |s m e]; try discriminate.
  - now intros [= <-].
  - intros H. apply integer_value_exact in H. unfold lt_int.
    destruct (0 <=? e) eqn:He; [now subst|].
    rewrite H. apply Z.leb_gt in He.
    assert (Hd : 0 < 2 ^ (- e)) by (apply Z.pow_pos_nonneg; lia).
    destruct (Z.ltb_spec z k), (Z.ltb_spec (z * 2 ^ (- e)) (k * 2 ^ (- e)));
      try reflexivity; nia.
Qed.

Lemma gt_int_integer (x : number) (z k : Z) :
  integer_value x = Some z -> gt_int x k = (k <? z).
Proof.
  destruct x as [s|s| |s m e]; try discriminate.
  - now intros [= <-].
  - intros H. apply integer_value_exact in H. unfold gt_int.
    destruct (0 <=? e) eqn:He; [now subst|].
    rewrite H. apply Z.leb_gt in He.
    assert (Hd : 0 < 2 ^ (- e)) by (apply Z.pow_pos_nonneg; lia).
    destruct (Z.ltb_spec k z), (Z.ltb_spec (k * 2 ^ (- e)) (z * 2 ^ (- e)));
      try reflexivity; nia.
Qed.

Lemma string_min_outcome (p : list string) (v : value) :
  outcome (string_min 1 p v) (nonempty_text v) p.
Proof.
  destruct v as [| | | |s| |]; simpl;
    try (split; [reflexivity|split; [discriminate|repeat constructor]]).
  destruct s as [|a s]; simpl.
  - split; [reflexivity|split; [discriminate|repeat constructor]].
  - reflexivity.
Qed.

Lemma string_min_valid (p : list string) (v : value) (s : string) :
  string_min 1 p v = Valid s -> v = Str s /\ s <> "".
Proof.
  destruct v as [| | | |s'| |]; simpl; try discriminate.
  destruct s' as [|a s']; simpl; [discriminate|].
  intros [= <-]. split; [reflexivity|discriminate].
Qed.

Lemma number_checks_integer (lo hi : option Z) (p : list string) (x : number) (z : Z) :
  integer_value x = Some z ->
  number_checks lo hi p x
  = (match lo with
     | Some k => if z <? k then [mkIssue too_small p] else []
     | None => []
     end
     ++ match hi with
        | Some k => if k <? z then [mkIssue too_big p] else []
        | None => []
        end)%list.
Proof.
  intros Hz. unfold number_checks, isInteger. rewrite Hz. simpl.
  destruct lo as [k|], hi as [k'|];
    rewrite ?(lt_int_integer _ _ Hz), ?(gt_int_integer _ _ Hz); reflexivity.
Qed.

Lemma number_checks_paths (lo hi : option Z) (p : list string) (x : number) :
  Forall (fun i => path i = p) (number_checks lo hi p x).
Proof.
  unfold number_checks.
  apply Forall_app; split; [|apply Forall_app; split].
  - destruct (isInteger x); repeat constructor.
  - destruct lo as [k|]; [destruct (lt_int x k)|]; repeat constructor.
  - destruct hi as [k|]; [destruct (gt_int x k)|]; repeat constructor.
Qed.

Lemma number_int_outcome (lo hi : option Z) (p : list string) (v : value) :
  outcome (number_int lo hi p v) (integer_within lo hi v) p.
Proof.
  destruct v as [| | |x| | |];
    try (split; [reflexivity|split; [discriminate|repeat constructor]]).
  assert (Hgen : outcome (match number_checks lo hi p x with
                          | [] => Valid x
                          | issues => Invalid issues
                          end) (integer_within lo hi (Num x)) p).
  { pose proof (number_checks_paths lo hi p x) as Hp.
    unfold integer_within. destruct (integer_value x) as [z|] eqn:Hz.
    - rewrite (number_checks_integer lo hi p _ Hz) in *.
      destruct lo as [k|], hi as [k'|]; simpl;
        repeat match goal with
               | |- context [?a <? ?b] =>
                   destruct (Z.ltb_spec a b); simpl
               | |- context [?a <=? ?b] =>
                   destruct (Z.leb_spec a b); simpl
               end;
        try reflexivity; try lia;
        (split; [reflexivity|split; [discriminate|repeat constructor]]).
    - unfold number_checks in *. unfold isInteger in *. rewrite Hz in *.
      simpl in *. split; [reflexivity|split; [discriminate|exact Hp]]. }
  destruct x as [s|s| |s m e]; try exact Hgen.
  split; [reflexivity|split; [discriminate|repeat constructor]].
Qed.

Lemma number_int_valid (lo hi : option Z) (p : list string) (v : value) (x : number) :
  number_int lo hi p v = Valid x -> v = Num x.
Proof.
  destruct v as [| | |y| | |]; simpl; try discriminate.
  destruct y; try discriminate;
    (destruct (number_checks lo hi p _); [|discriminate]); now intros [= <-].
Qed.

Lemma default_size_outcome (p : list string) (v : value) :
  outcome (default (number_int (Some 1) (Some 500)) (Num (number_of_Z 50)) p v)
          (omitted v || integer_within (Some 1) (Some 500) v) p.
Proof.
  destruct v; exact (number_int_outcome (Some 1) (Some 500) p _).
Qed.

Lemma optional_outcome (p : list string) (v : value) :
  outcome (optional (number_int None None) p v)
          (omitted v || integer_within None None v) p.
Proof.
  pose proof (number_int_outcome None None p v) as H.
  destruct v; try reflexivity;
    unfold optional; simpl omitted; cbn [orb];
    destruct (number_int None None p _); exact H.
Qed.

Lemma outcome_issues {A : Type} (r : parsed A) (req : bool) (p : list string) :
  outcome r req p ->
  (req = false <-> issues_of r <> []) /\ Forall (fun i => path i = p) (issues_of r).
Proof.
  destruct r as [a|issues]; simpl.
  - intros ->. split; [split; [discriminate|congruence]|constructor].
  - intros (-> & Hne & Hp). split; [split; auto|exact Hp].
Qed.

Lemma safeParse_object (props : list (string * value)) :
  match RequestSchema_safeParse (Obj props) with
  | Valid rb =>
      parse_subreddit props = Valid (rb_subreddit rb) /\
      parse_query props = Valid (rb_query rb) /\
      parse_size props = Valid (rb_size rb) /\
      parse_before props = Valid (rb_before rb) /\
      parse_after props = Valid (rb_after rb)
  | Invalid issues => issues = all_issues props /\ issues <> []
  end.
Proof.
  pose proof (string_min_outcome ["subreddit"] (field props "subreddit")) as Hs.
  pose proof (string_min_outcome ["query"] (field props "query")) as Hq.
  pose proof (default_size_outcome ["size"] (field props "size")) as Hn.
  pose proof (optional_outcome ["before"] (field props "before")) as Hb.
  pose proof (optional_outcome ["after"] (field props "after")) as Ha.
  unfold RequestSchema_safeParse, all_issues.
  fold (parse_subreddit props) (parse_query props) (parse_size props)
       (parse_before props) (parse_after props) in *.
  destruct (parse_subreddit props) as [s|i1], (parse_query props) as [q|i2],
    (parse_size props) as [n|i3], (parse_before props) as [b|i4],
    (parse_after props) as [a|i5]; cbn [issues_of outcome] in *;
    try (repeat split; reflexivity);
    (split; [reflexivity|]);
    repeat match goal with
           | H : _ /\ _ |- _ => destruct H as (_ & H & _)
           end;
    rewrite ?app_nil_r; cbn [app];
    intros Hnil; repeat (apply app_eq_nil in Hnil as [? Hnil]); congruence.
Qed.

Lemma named_iff (req : bool) (own all : list ZodIssue) (p : list string) :
  (req = false <-> own <> []) ->
  Forall (fun i => path i = p) own ->
  (forall i, In i own -> In i all) ->
  (forall i, In i all -> path i = p -> In i own) ->
  (req = false <-> exists i, In i all /\ path i = p).
Proof.
  intros Hreq Hown Hsub Hback. rewrite Forall_forall in Hown. split.
  - intros H. apply Hreq in H. destruct own as [|i own']; [congruence|].
    exists i. split; [apply Hsub|apply Hown]; now left.
  - intros (i & Hi & Hp). apply Hreq. intros ->. exact (Hback i Hi Hp).
Qed.

Lemma in_all_issues (props : list (string * value)) (i : ZodIssue) :
  In i (all_issues props) <->
  In i (issues_of (parse_subreddit props)) \/ In i (issues_of (parse_query props))
  \/ In i (issues_of (parse_size props)) \/ In i (issues_of (parse_before props))
  \/ In i (issues_of (parse_after props)).
Proof. unfold all_issues. rewrite !in_app_iff. reflexivity. Qed.

Lemma field_paths (props : list (string * value)) :
  Forall (fun i => path i = ["subreddit"]) (issues_of (parse_subreddit props)) /\
  Forall (fun i => path i = ["query"]) (issues_of (parse_query props)) /\
  Forall (fun i => path i = ["size"]) (issues_of (parse_size props)) /\
  Forall (fun i => path i = ["before"]) (issues_of (parse_before props)) /\
  Forall (fun i => path i = ["after"]) (issues_of (parse_after props)).
Proof.
  repeat split.
  - exact (proj2 (@outcome_issues _ _ _ _ (string_min_outcome _ _))).
  - exact (proj2 (@outcome_issues _ _ _ _ (string_min_outcome _ _))).
  - exact (proj2 (@outcome_issues _ _ _ _ (default_size_outcome _ _))).
  - exact (proj2 (@outcome_issues _ _ _ _ (optional_outcome _ _))).
  - exact (proj2 (@outcome_issues _ _ _ _ (optional_outcome _ _))).
Qed.

Ltac other_field H :=
  let Hi := fresh "Hi" in
  let Hp := fresh "Hp" in
  intros Hi Hp; apply H in Hi; rewrite Hi in Hp; discriminate Hp.

Lemma requirements_issues (props : list (string * value)) :
  forall f, In f schema_fields ->
    (requirement f (field props f) = false
     <-> exists i, In i (all_issues props) /\ path i = [f]).
Proof.
  destruct (field_paths props) as (Ps & Pq & Pn & Pb & Pa).
  pose proof Ps as Ps'. pose proof Pq as Pq'. pose proof Pn as Pn'.
  pose proof Pb as Pb'. pose proof Pa as Pa'.
  rewrite Forall_forall in Ps', Pq', Pn', Pb', Pa'.
  intros f Hf. simpl in Hf.
  destruct Hf as [ <- | [ <- | [ <- | [ <- | [ <- | [] ] ] ] ] ].
  - apply named_iff with (own := issues_of (parse_subreddit props)).
    + exact (proj1 (@outcome_issues _ _ _ _ (string_min_outcome _ _))).
    + exact Ps.
    + intros i Hi. apply in_all_issues. now left.
    + intros i Hi. apply in_all_issues in Hi.
      destruct Hi as [Hi|[Hi|[Hi|[Hi|Hi]]]]; revert Hi;
        [ tauto | other_field Pq' | other_field Pn' | other_field Pb'
        | other_field Pa' ].
  - apply named_iff with (own := issues_of (parse_query props)).
    + exact (proj1 (@outcome_issues _ _ _ _ (string_min_outcome _ _))).
    + exact Pq.
    + intros i Hi. apply in_all_issues. right. now left.
    + intros i Hi. apply in_all_issues in Hi.
      destruct Hi as [Hi|[Hi|[Hi|[Hi|Hi]]]]; revert Hi;
        [ other_field Ps' | tauto | other_field Pn' | other_field Pb'
        | other_field Pa' ].
  - apply named_iff with (own := issues_of (parse_size props)).
    + exact (proj1 (@outcome_issues _ _ _ _ (default_size_outcome _ _))).
    + exact Pn.
    + intros i Hi. apply in_all_issues. right. right. now left.
    + intros i Hi. apply in_all_issues in Hi.
      destruct Hi as [Hi|[Hi|[Hi|[Hi|Hi]]]]; revert Hi;
        [ other_field Ps' | other_field Pq' | tauto | other_field Pb'
        | other_field Pa' ].
  - apply named_iff with (own := issues_of (parse_before props)).
    + exact (proj1 (@outcome_issues _ _ _ _ (optional_outcome _ _))).
    + exact Pb.
    + intros i Hi. apply in_all_issues. right. right. right. now left.
    + intros i Hi. apply in_all_issues in Hi.
      destruct Hi as [Hi|[Hi|[Hi|[Hi|Hi]]]]; revert Hi;
        [ other_field Ps' | other_field Pq' | other_field Pn' | tauto
        | other_field Pa' ].
  - apply named_iff with (own := issues_of (parse_after props)).
    + exact (proj1 (@outcome_issues _ _ _ _ (optional_outcome _ _))).
    + exact Pa.
    + intros i Hi. apply in_all_issues. right. right. right. now right.
    + intros i Hi. apply in_all_issues in Hi.
      destruct Hi as [Hi|[Hi|[Hi|[Hi|Hi]]]]; revert Hi;
        [ other_field Ps' | other_field Pq' | other_field Pn'
        | other_field Pb' | tauto ].
Qed.

Lemma issues_paths (props : list (string * value)) :
  forall i, In i (all_issues props) -> exists f, In f schema_fields /\ path i = [f].
Proof.
  destruct (field_paths props) as (Ps & Pq & Pn & Pb & Pa).
  rewrite Forall_forall in Ps, Pq, Pn, Pb, Pa.
  intros i Hi. apply in_all_issues in Hi.
  destruct Hi as [Hi|[Hi|[Hi|[Hi|Hi]]]].
  - exists "subreddit". split; [now left|now apply Ps].
  - exists "query". split; [right; now left|now apply Pq].
  - exists "size". split; [right; right; now left|now apply Pn].
  - exists "before". split; [right; right; right; now left|now apply Pb].
  - exists "after". split; [right; right; right; right; now left|now apply Pa].
Qed.

Lemma parse_size_valid (props : list (string * value)) (n : number) :
  parse_size props = Valid n ->
  exists z, integer_value n = Some z /\ 1 <= z <= 500 /\
            (omitted (field props "size") = true
             -> n = number_of_Z 50 /\ z = 50).
Proof.
  unfold parse_size, default. intros Hp.
  destruct (omitted (field props "size")) eqn:Hom.
  - destruct (field props "size"); try discriminate.
    apply number_int_valid in Hp. injection Hp as <-.
    exists 50. repeat split; try reflexivity; lia.
  - pose proof (number_int_outcome (Some 1) (Some 500) ["size"] (field props "size"))
      as Hout.
    assert (Hp' : number_int (Some 1) (Some 500) ["size"] (field props "size") = Valid n)
      by (destruct (field props "size"); try discriminate; exact Hp).
    rewrite Hp' in Hout. simpl in Hout.
    apply number_int_valid in Hp'. rewrite Hp' in Hout. simpl in Hout.
    destruct (integer_value n) as [z|]; [|discriminate].
    exists z. apply andb_prop in Hout as [Hlo Hhi].
    split; [reflexivity|]. split; [lia|discriminate].
Qed.

Section Validation.

Variable NumberToString : number -> string.

(** C8: for a body that parses, validation succeeds exactly when
    [subreddit] and [query] are non-empty text, [size] is omitted or an
    integer between 1 and 500, and [before] and [after] are omitted or
    integers. On success the request has non-empty [subreddit] and
    [query] and a [size] that is an integer between 1 and 500, which is
    50 when [size] was omitted. Otherwise the response is 400 and carries
    a list of issues, not empty, each one a code with the path of a
    field, and a field has an issue exactly when it fails its
    requirement; the upstream is not called. *)
Theorem C8_validation cfg net request rawBody :
  authenticated cfg request ->
  req_json request = Ok rawBody ->
  match RequestSchema_safeParse rawBody with
  | Valid rb =>
      meets_schema rawBody = true /\
      rb_subreddit rb <> "" /\ rb_query rb <> "" /\
      exists z, integer_value (rb_size rb) = Some z /\ 1 <= z <= 500 /\
                (forall props, rawBody = Obj props ->
                               omitted (field props "size") = true -> z = 50)
  | Invalid issues =>
      meets_schema rawBody = false /\
      issues <> [] /\
      names_offenders rawBody issues /\
      fetch NumberToString cfg net request
      = ([ReadRequestBody],
         Ok (jsonResponse (InvalidBody "Invalid request body." issues) 400))
  end.
Proof.
  intros Hauth Hjson.
  assert (Hfetch : forall issues,
             RequestSchema_safeParse rawBody = Invalid issues ->
             fetch NumberToString cfg net request
             = ([ReadRequestBody],
                Ok (jsonResponse (InvalidBody "Invalid request body." issues) 400))).
  { intros issues Hp. rewrite (fetch_authenticated NumberToString net Hauth).
    unfold serve, read_body. rewrite Hjson. simpl. rewrite Hp. reflexivity. }
  destruct rawBody as [| | | | | |props];
    try (split; [reflexivity|split; [discriminate|split; [reflexivity|]]];
         now apply Hfetch).
  pose proof (safeParse_object props) as Hobj.
  pose proof (requirements_issues props) as Hreq.
  destruct (RequestSchema_safeParse (Obj props)) as [rb|issues] eqn:Hp.
  - destruct Hobj as (Hs & Hq & Hn & Hb & Ha).
    split; [|split; [|split]].
    + unfold meets_schema. apply forallb_forall. intros f Hf.
      destruct (requirement f (field props f)) eqn:Hr; [reflexivity|].
      apply (Hreq f Hf) in Hr as (i & Hi & _).
      unfold all_issues in Hi. rewrite Hs, Hq, Hn, Hb, Ha in Hi. destruct Hi.
    + apply string_min_valid in Hs. tauto.
    + apply string_min_valid in Hq. tauto.
    + apply parse_size_valid in Hn as (z & Hz & Hrange & Hdef).
      exists z. split; [exact Hz|split; [exact Hrange|]].
      intros props' [= <-] Hom. now apply Hdef.
  - destruct Hobj as (-> & Hne).
    split; [|split; [exact Hne|split; [|now apply Hfetch]]].
    + destruct (meets_schema (Obj props)) eqn:Hm; [|reflexivity].
      exfalso. unfold meets_schema in Hm. rewrite forallb_forall in Hm.
      assert (Hsome : exists i, In i (all_issues props)).
      { destruct (all_issues props) as [|i rest]; [congruence|].
        exists i. now left. }
      destruct Hsome as [i Hi].
      destruct (issues_paths props i Hi) as (f & Hf & Hpath).
      assert (Hfalse : requirement f (field props f) = false).
      { apply (Hreq f Hf). exists i. split; [exact Hi|exact Hpath]. }
      rewrite (Hm f Hf) in Hfalse. discriminate.
    + split; [exact Hreq | exact (issues_paths props)].
Qed.

End Validation.

(* ===================================================================== *)
(** ** The properties on sample calls *)
(* ===================================================================== *)

Lemma sample_configured :
  configured sample_config "https://bridge.example/search" "s3cret".
Proof. repeat split; try reflexivity; discriminate. Qed.

Lemma sample_authenticated (body : result value) :
  authenticated sample_config (mkRequest "POST" (Some "s3cret") body).
Proof.
  split; [reflexivity|].
  exists "https://bridge.example/search", "s3cret".
  split; [exact sample_configured|reflexivity].
Qed.

Lemma sample_valid_call : valid_call sample_config sample_request sample_rb.
Proof.
  split; [apply sample_authenticated|].
  exists sample_body. split; reflexivity.
Qed.

Lemma sample_upstream_payload (payload : value) :
  upstream_payload sample_config (answering (upstream_json payload)) sample_rb payload.
Proof. exists (upstream_json payload). repeat split. Qed.

(** End to end: the valid request [{subreddit: "movies", query: "oscars",
    size: 10}] with the right key, the upstream answering
    [{"results": [{"id": 1, "body": "great film", "score": "5"}]}]. *)
Example end_to_end :
  fetch integral_NumberToString sample_config
        (answering
           (upstream_json
              (Obj [("results",
                     Arr [Obj [("id", Num (number_of_Z 1));
                               ("body", Str "great film");
                               ("score", Str "5")]])])))
        sample_request
  = (full_trace sample_config sample_rb,
     Ok (jsonResponse
           (OkBody true 1
              [Obj [("id", Str "1"); ("author", Null);
                    ("body", Str "great film"); ("score", Null);
                    ("created_utc", Null); ("permalink", Null);
                    ("subreddit", Null)]])
           200)).
Proof. reflexivity. Qed.

(** *** Payloads without a container (C1) *)

(** C1 fails as stated: [{"comments": "none"}] holds no list under any
    of the three keys, and the answer to a valid call is 500: the text
    is not [null], so it is what [map] is called on. *)
Lemma C1_counterexample_text_comments :
  is_json payload_text_comments = true /\
  no_list payload_text_comments = true /\
  valid_call sample_config sample_request sample_rb /\
  upstream_payload sample_config (answering (upstream_json payload_text_comments))
                   sample_rb payload_text_comments /\
  fetch integral_NumberToString sample_config
        (answering (upstream_json payload_text_comments)) sample_request
  = (full_trace sample_config sample_rb,
     Ok (jsonResponse
           (UnexpectedBody "Unexpected server error."
                           "rawComments.map is not a function")
           500)).
Proof.
  split; [reflexivity|]. split; [reflexivity|].
  split; [exact sample_valid_call|].
  split; [apply sample_upstream_payload|reflexivity].
Qed.

Lemma C1_witness_null_containers :
  valid_call sample_config sample_request sample_rb /\
  upstream_payload sample_config (answering (upstream_json payload_null_containers))
                   sample_rb payload_null_containers /\
  no_container payload_null_containers = true /\
  comments_of integral_NumberToString payload_null_containers = Ok [] /\
  fetch integral_NumberToString sample_config
        (answering (upstream_json payload_null_containers)) sample_request
  = (full_trace sample_config sample_rb,
     Ok (jsonResponse (OkBody true 0 []) 200)).
Proof.
  split; [exact sample_valid_call|].
  split; [apply sample_upstream_payload|].
  split; [reflexivity|].
  apply (@C1_no_container integral_NumberToString sample_config
           (answering (upstream_json payload_null_containers))
           sample_request sample_rb payload_null_containers).
  - exact sample_valid_call.
  - apply sample_upstream_payload.
  - reflexivity.
Defined.

(** *** Items the mapping is defined on (C2) *)

(** C2 fails as stated: on the item [null] the first property read of
    the mapping throws, and the call is answered 500. *)
Lemma C2_counterexample_null_item :
  is_json payload_null_item = true /\
  rawComments payload_null_item = Ok (Arr [Null]) /\
  normalise integral_NumberToString Null
  = Throw (TypeError "Cannot read properties of null (reading 'id')") /\
  fetch integral_NumberToString sample_config
        (answering (upstream_json payload_null_item)) sample_request
  = (full_trace sample_config sample_rb,
     Ok (jsonResponse
           (UnexpectedBody "Unexpected server error."
                           "Cannot read properties of null (reading 'id')")
           500)).
Proof. repeat split. Qed.

Lemma C2_witness_mistyped_items :
  (forall c, In c mistyped_items -> item_ok c = true) /\
  exists comments,
    mapM (normalise integral_NumberToString) mistyped_items = Ok comments /\
    Forall2 (fun c r => normalise integral_NumberToString c = Ok r
                        /\ NormalisedComment r = true)
            mistyped_items comments.
Proof.
  assert (Hok : forall c, In c mistyped_items -> item_ok c = true).
  { intros c Hc. simpl in Hc.
    destruct Hc as [ <- | [ <- | [ <- | [] ] ] ]; reflexivity. }
  split; [exact Hok|].
  exact (@C2_mapping_defined integral_NumberToString mistyped_items Hok).
Defined.

Example mistyped_items_records :
  mapM (normalise integral_NumberToString) mistyped_items
  = Ok [Obj [("id", Str "7"); ("author", Str "false"); ("body", Str "a,,b");
             ("score", Null); ("created_utc", Null);
             ("permalink", Str "[object Object]"); ("subreddit", Null)];
        Obj [("id", Str ""); ("author", Null); ("body", Str "");
             ("score", Null); ("created_utc", Null);
             ("permalink", Null); ("subreddit", Null)];
        Obj [("id", Str ""); ("author", Null); ("body", Str "");
             ("score", Null); ("created_utc", Null);
             ("permalink", Null); ("subreddit", Null)]].
Proof. reflexivity. Qed.

(** A field that cannot be coerced: an object with an own [toString]. *)
Example uncoercible_id :
  normalise integral_NumberToString
            (Obj [("id", Obj [("toString", Num (number_of_Z 1))])])
  = Throw (TypeError "Cannot convert object to primitive value").
Proof. reflexivity. Qed.

(** *** Priority of the containers (C3) *)

(** C3 fails as stated for [data] against [results]: this payload holds
    a list under both, and neither is normalised, because [comments]
    holds a text and comes first; the call is answered 500. *)
Lemma C3_counterexample_text_then_lists :
  is_json payload_text_then_lists = true /\
  under payload_text_then_lists "data" = Arr [item_b] /\
  under payload_text_then_lists "results" = Arr [item_c] /\
  rawComments payload_text_then_lists = Ok (Str "unavailable") /\
  comments_of integral_NumberToString payload_text_then_lists
  = Throw (TypeError "rawComments.map is not a function") /\
  fetch integral_NumberToString sample_config
        (answering (upstream_json payload_text_then_lists)) sample_request
  = (full_trace sample_config sample_rb,
     Ok (jsonResponse
           (UnexpectedBody "Unexpected server error."
                           "rawComments.map is not a function")
           500)).
Proof. repeat split. Qed.

Lemma C3_witness_three_lists :
  (under payload_three_lists "comments" = Arr [item_a] \/
   (nullish (under payload_three_lists "comments") = true /\
    under payload_three_lists "data" = Arr [item_a])) /\
  rawComments payload_three_lists = Ok (Arr [item_a]) /\
  comments_of integral_NumberToString payload_three_lists
  = mapM (normalise integral_NumberToString) [item_a].
Proof.
  split; [left; reflexivity|].
  apply (@C3_container_priority integral_NumberToString payload_three_lists [item_a]).
  left. reflexivity.
Defined.

Example data_before_results :
  comments_of integral_NumberToString
              (Obj [("results", Arr [item_c]); ("comments", Null);
                    ("data", Arr [item_b])])
  = Ok [Obj [("id", Str "b"); ("author", Null); ("body", Str "from data");
             ("score", Null); ("created_utc", Null); ("permalink", Null);
             ("subreddit", Null)]].
Proof. reflexivity. Qed.

(** *** The body of a record (C4) *)

Lemma C4_witness_selftext :
  normalise integral_NumberToString item_selftext = Ok record_selftext /\
  exists text,
    under record_selftext "body" = Str text /\
    (if nullish (under item_selftext "body") then
       if nullish (under item_selftext "selftext") then text = ""
       else ToString integral_NumberToString (under item_selftext "selftext")
            = Ok text
     else ToString integral_NumberToString (under item_selftext "body") = Ok text).
Proof.
  split; [reflexivity|].
  apply (@C4_body_fallback integral_NumberToString item_selftext record_selftext).
  reflexivity.
Defined.

Example body_of_selftext :
  under record_selftext "body" = Str "hello".
Proof. reflexivity. Qed.

Example body_of_neither :
  normalise integral_NumberToString (Obj [("id", Str "t1_x")])
  = Ok (Obj [("id", Str "t1_x"); ("author", Null); ("body", Str "");
             ("score", Null); ("created_utc", Null); ("permalink", Null);
             ("subreddit", Null)]).
Proof. reflexivity. Qed.

Example body_before_selftext :
  normalise integral_NumberToString
            (Obj [("selftext", Str "post"); ("body", Str "")])
  = Ok (Obj [("id", Str ""); ("author", Null); ("body", Str "");
             ("score", Null); ("created_utc", Null); ("permalink", Null);
             ("subreddit", Null)]).
Proof. reflexivity. Qed.

(** *** The numeric fields of a record (C5) *)

Lemma C5_witness_text_score :
  normalise integral_NumberToString item_text_score = Ok record_text_score /\
  under record_text_score "score"
  = match under item_text_score "score" with
    | Num n => Num n
    | _ => Null
    end
  /\ under record_text_score "created_utc"
     = match under item_text_score "created_utc" with
       | Num n => Num n
       | _ => match under item_text_score "created" with
              | Num m => Num m
              | _ => Null
              end
       end.
Proof.
  split; [reflexivity|].
  apply (@C5_numeric_fields integral_NumberToString item_text_score record_text_score).
  reflexivity.
Defined.

Example score_kept :
  normalise integral_NumberToString
            (Obj [("score", Num (number_of_Z 5));
                  ("created_utc", Num (number_of_Z 1700000000));
                  ("created", Num (number_of_Z 3))])
  = Ok (Obj [("id", Str ""); ("author", Null); ("body", Str "");
             ("score", Num (number_of_Z 5));
             ("created_utc", Num (number_of_Z 1700000000));
             ("permalink", Null); ("subreddit", Null)]).
Proof. reflexivity. Qed.

(** *** Credentials and configuration (C6, C10) *)

Lemma C6_witness_wrong_key :
  req_method request_wrong_key = "POST" /\
  configured sample_config "https://bridge.example/search" "s3cret" /\
  req_x_mcp_key request_wrong_key <> Some "s3cret" /\
  fetch integral_NumberToString sample_config offline request_wrong_key
  = ([], Ok (jsonResponse (ErrorBody "Unauthorised.") 401)).
Proof.
  split; [reflexivity|]. split; [exact sample_configured|].
  split; [discriminate|].
  apply (@C6_unauthorised integral_NumberToString sample_config offline
           request_wrong_key "https://bridge.example/search" "s3cret").
  - reflexivity.
  - exact sample_configured.
  - discriminate.
Defined.

Example missing_key :
  fetch integral_NumberToString sample_config offline
        (mkRequest "POST" None (Ok sample_body))
  = ([], Ok (jsonResponse (ErrorBody "Unauthorised.") 401)).
Proof. reflexivity. Qed.

Lemma C10_witness_empty_key :
  req_method request_empty_key = "POST" /\
  (BRIDGE_URL config_empty_key = Some "" \/ API_KEY config_empty_key = Some "" \/
   BRIDGE_URL config_empty_key = None \/ API_KEY config_empty_key = None) /\
  exists error,
    fetch integral_NumberToString config_empty_key offline request_empty_key
    = ([], Ok (jsonResponse (ErrorBody error) 500)).
Proof.
  split; [reflexivity|]. split; [right; left; reflexivity|].
  apply (@C10_misconfigured integral_NumberToString config_empty_key offline
                            request_empty_key).
  - reflexivity.
  - right. left. reflexivity.
Defined.

Example empty_bridge_url :
  fetch integral_NumberToString (mkConfig (Some "") (Some "s3cret")) offline
        (mkRequest "POST" None (Ok sample_body))
  = ([], Ok (jsonResponse
               (ErrorBody "PUSHSHIFT_BRIDGE_URL is not configured on the server.")
               500)).
Proof. reflexivity. Qed.

(** *** An upstream error (C7) *)

Lemma C7_witness_503 :
  valid_call sample_config sample_request sample_rb /\
  upstream_answers sample_config (answering upstream_503) sample_rb upstream_503 /\
  ~ (200 <= up_status upstream_503 <= 299) /\
  exists detail,
    fetch integral_NumberToString sample_config (answering upstream_503)
          sample_request
    = ([ReadRequestBody;
        CallUpstream (narrowed (BRIDGE_URL sample_config)) sample_rb;
        ReadUpstreamText],
       Ok (jsonResponse
             (UpstreamBody "Upstream Pushshift bridge error."
                           (up_status upstream_503) detail)
             502))
    /\ (String.length detail <= 500)%nat
    /\ detail = slice0 500 (match up_text upstream_503 with
                            | Ok t => t
                            | Throw _ => ""
                            end)
    /\ match up_text upstream_503 with
       | Ok t => String.prefix detail t = true
       | Throw _ => detail = ""
       end.
Proof.
  assert (Hst : ~ (200 <= up_status upstream_503 <= 299)) by (simpl; lia).
  split; [exact sample_valid_call|]. split; [reflexivity|]. split; [exact Hst|].
  apply (@C7_upstream_error integral_NumberToString sample_config
           (answering upstream_503) sample_request sample_rb upstream_503).
  - exact sample_valid_call.
  - reflexivity.
  - exact Hst.
Defined.

Example detail_of_503 :
  fetch integral_NumberToString sample_config (answering upstream_503)
        sample_request
  = ([ReadRequestBody;
      CallUpstream "https://bridge.example/search" sample_rb;
      ReadUpstreamText],
     Ok (jsonResponse
           (UpstreamBody "Upstream Pushshift bridge error." 503
                         (string_of_list_ascii (repeat "e"%char 500)))
           502)).
Proof. vm_compute. reflexivity. Qed.

(** *** Validation (C8) *)

Lemma C8_witness_invalid_body :
  authenticated sample_config request_invalid /\
  req_json request_invalid = Ok body_invalid /\
  meets_schema body_invalid = false /\
  issues_invalid <> [] /\
  names_offenders body_invalid issues_invalid /\
  fetch integral_NumberToString sample_config offline request_invalid
  = ([ReadRequestBody],
     Ok (jsonResponse (InvalidBody "Invalid request body." issues_invalid) 400)).
Proof.
  split; [apply sample_authenticated|]. split; [reflexivity|].
  exact (@C8_validation integral_NumberToString sample_config offline
                        request_invalid body_invalid
                        (sample_authenticated _) eq_refl).
Defined.

Example sample_body_valid :
  RequestSchema_safeParse sample_body = Valid sample_rb.
Proof. reflexivity. Qed.

Example size_defaults_to_50 :
  RequestSchema_safeParse
    (Obj [("subreddit", Str "movies"); ("query", Str "oscars");
          ("limit", Num (number_of_Z 900))])
  = Valid (mkRequestBody "movies" "oscars" (number_of_Z 50) None None).
Proof. reflexivity. Qed.

Example size_501_rejected :
  RequestSchema_safeParse
    (Obj [("subreddit", Str "movies"); ("query", Str "oscars");
          ("size", Num (number_of_Z 501))])
  = Invalid [mkIssue too_big ["size"]].
Proof. reflexivity. Qed.

Example body_not_an_object :
  RequestSchema_safeParse (Arr [Str "movies"]) = Invalid [mkIssue invalid_type []].
Proof. reflexivity. Qed.

(** *** Shape and order of the records (C9) *)

Lemma C9_witness_two_items :
  comments_of integral_NumberToString payload_two_items = Ok records_two_items /\
  exists items,
    rawComments payload_two_items = Ok (Arr items) /\
    length records_two_items = length items /\
    Forall2 (fun c r => normalise integral_NumberToString c = Ok r)
            items records_two_items /\
    Forall (fun r => NormalisedComment r = true) records_two_items.
Proof.
  split; [reflexivity|].
  apply (@C9_records_and_order integral_NumberToString payload_two_items
                               records_two_items).
  reflexivity.
Defined.

(* ===================================================================== *)
(** ** Further properties of the handler *)
(* ===================================================================== *)

Lemma safeParse_issues (rawBody : value) (issues : list ZodIssue) :
  RequestSchema_safeParse rawBody = Invalid issues -> issues <> [].
Proof.
  intros Hp. destruct rawBody as [| | | | | |props];
    try (injection Hp as <-; discriminate).
  pose proof (safeParse_object props) as Hobj. rewrite Hp in Hobj. tauto.
Qed.

Section Coverage.

Variable NumberToString : number -> string.

Lemma comments_of_shape (payload : value) (comments : list value) :
  comments_of NumberToString payload = Ok comments ->
  Forall (fun r => NormalisedComment r = true) comments.
Proof.
  unfold comments_of. destruct (rawComments payload) as [raw|];
    cbn [rbind]; [|discriminate].
  destruct raw as [| | | | |items|]; try discriminate. cbn [call_map].
  intros Hm. apply mapM_Forall2 in Hm.
  induction Hm as [|c r items' comments' Hc _ IH]; constructor; [|exact IH].
  exact (@normalise_shape NumberToString c r Hc).
Qed.

(** The checks before the body is read: an answer with an empty trace,
    or an authenticated request. *)
Lemma fetch_gate cfg net request :
  (exists error st,
      fetch NumberToString cfg net request
      = ([], Ok (jsonResponse (ErrorBody error) st))
      /\ (st = 405 \/ st = 500 \/ st = 401))
  \/ authenticated cfg request.
Proof.
  unfold fetch.
  destruct (String.eqb (req_method request) "POST") eqn:Hm; cbn [negb].
  2:{ left. do 2 eexists. split; [reflexivity|auto]. }
  apply String.eqb_eq in Hm.
  destruct (falsy (BRIDGE_URL cfg)) eqn:Hu.
  { left. do 2 eexists. split; [reflexivity|auto]. }
  destruct (falsy (API_KEY cfg)) eqn:Hk.
  { left. do 2 eexists. split; [reflexivity|auto]. }
  destruct (falsy (req_x_mcp_key request)
            || strict_neq (req_x_mcp_key request) (API_KEY cfg)) eqn:Hh.
  { left. do 2 eexists. split; [reflexivity|auto]. }
  right. split; [exact Hm|].
  destruct (BRIDGE_URL cfg) as [u|] eqn:Eu; [|discriminate].
  destruct (API_KEY cfg) as [k|] eqn:Ek; [|discriminate].
  exists u, k. split.
  - split; [exact Eu|]. split; [intros ->; discriminate|].
    split; [exact Ek|intros ->; discriminate].
  - apply orb_false_iff in Hh as [_ Hh].
    destruct (req_x_mcp_key request) as [h|]; [|discriminate].
    simpl in Hh. apply negb_false_iff, String.eqb_eq in Hh. now subst.
Qed.

(** Every way a call can end: the response, its document, and the
    effects that led to it. *)
Lemma fetch_outcome cfg net request :
  exists t resp,
    fetch NumberToString cfg net request = (t, Ok resp)
    /\ well_formed resp
    /\ (t = [] \/ t = [ReadRequestBody]
        \/ exists rb,
            valid_call cfg request rb
            /\ (t = [ReadRequestBody; CallUpstream (narrowed (BRIDGE_URL cfg)) rb]
                \/ t = [ReadRequestBody;
                        CallUpstream (narrowed (BRIDGE_URL cfg)) rb;
                        ReadUpstreamText]
                \/ t = [ReadRequestBody;
                        CallUpstream (narrowed (BRIDGE_URL cfg)) rb;
                        ReadUpstreamJson])).
Proof.
  destruct (fetch_gate cfg net request) as [(error & st & -> & Hst)|Hauth].
  { do 2 eexists. split; [reflexivity|]. split; [|now left].
    unfold well_formed. simpl. intuition. }
  rewrite (@fetch_authenticated NumberToString cfg net request Hauth).
  destruct (req_json request) as [rawBody|e] eqn:Hj.
  2:{ unfold serve, read_body. rewrite Hj. simpl.
      do 2 eexists. split; [reflexivity|]. split; [|right; now left].
      unfold well_formed. simpl. auto. }
  destruct (RequestSchema_safeParse rawBody) as [rb|issues] eqn:Hp.
  2:{ unfold serve, read_body. rewrite Hj. simpl. rewrite Hp.
      do 2 eexists. split; [reflexivity|]. split; [|right; now left].
      unfold well_formed. simpl. split; [reflexivity|].
      exact (safeParse_issues _ Hp). }
  assert (Hv : valid_call cfg request rb).
  { split; [exact Hauth|]. exists rawBody. now split. }
  rewrite (@serve_valid NumberToString cfg net request rb Hv).
  destruct (net (narrowed (BRIDGE_URL cfg)) rb) as [up|e].
  2:{ do 2 eexists. split; [reflexivity|]. split; [reflexivity|].
      right. right. exists rb. split; [exact Hv|now left]. }
  unfold io_bind at 1, respond, read_text.
  destruct (up_ok up).
  - destruct (up_json up) as [payload|e]; simpl.
    + destruct (comments_of NumberToString payload) as [comments|e] eqn:Hc; simpl;
        do 2 eexists; (split; [reflexivity|]);
        (split; [|right; right; exists rb; split; [exact Hv|now right; right]]).
      * unfold well_formed. simpl. repeat split.
        exact (comments_of_shape _ Hc).
      * reflexivity.
    + do 2 eexists. split; [reflexivity|]. split; [reflexivity|].
      right. right. exists rb. split; [exact Hv|now right; right].
  - simpl. destruct (up_text up) as [text|e]; simpl;
      do 2 eexists; (split; [reflexivity|]);
      (split; [|right; right; exists rb; split; [exact Hv|right; now left]]);
      unfold well_formed; cbn [body status jsonResponse];
      (split; [reflexivity|apply slice0_length]).
Qed.

(** *** Method, body and response contract *)

(** X1: a request whose method is not POST is answered 405 whatever the
    configuration, the headers, the body and the network are; nothing is
    read and nothing is called. *)
Theorem X1_method_not_allowed cfg net request :
  req_method request <> "POST" ->
  fetch NumberToString cfg net request
  = ([], Ok (jsonResponse (ErrorBody "Method not allowed. Use POST.") 405)).
Proof.
  intros Hm. unfold fetch. apply String.eqb_neq in Hm. rewrite Hm. reflexivity.
Qed.

(** X2: when the body of an authenticated request cannot be read as
    JSON the response is 400 with its own message; the body was read
    once and the upstream is not called. *)
Theorem X2_malformed_body cfg net request err :
  authenticated cfg request ->
  req_json request = Throw err ->
  fetch NumberToString cfg net request
  = ([ReadRequestBody],
     Ok (jsonResponse (ErrorBody "Request body must be valid JSON.") 400)).
Proof.
  intros Hauth Hj.
  rewrite (@fetch_authenticated NumberToString cfg net request Hauth).
  unfold serve, read_body. rewrite Hj. reflexivity.
Qed.

(** X3: the handler never throws: whatever the configuration, the
    request and the network do, it ends with a response, and the status
    of the response agrees with its document: 200 only with
    [ok: true], a [count] equal to the length of [comments] and records
    of the declared shape; 502 only with an upstream error whose detail
    has at most 500 characters; 400 with a non-empty list when issues
    are given; 500 for the catch-all. *)
Theorem X3_response_contract cfg net request :
  exists t resp,
    fetch NumberToString cfg net request = (t, Ok resp) /\ well_formed resp.
Proof.
  destruct (fetch_outcome cfg net request) as (t & resp & Hf & Hw & _).
  exists t, resp. now split.
Qed.

(** X4: the effects of a call come in one order: the body is read at
    most once, the upstream is called at most once and only after the
    body was read, and of the upstream answer either the text or the
    JSON is read, never both. *)
Theorem X4_effects_in_order cfg net request :
  let t := fst (fetch NumberToString cfg net request) in
  t = [] \/ t = [ReadRequestBody]
  \/ exists url rb,
      t = [ReadRequestBody; CallUpstream url rb]
      \/ t = [ReadRequestBody; CallUpstream url rb; ReadUpstreamText]
      \/ t = [ReadRequestBody; CallUpstream url rb; ReadUpstreamJson].
Proof.
  destruct (fetch_outcome cfg net request) as (t & resp & Hf & _ & Ht).
  rewrite Hf. cbn [fst].
  destruct Ht as [Ht|[Ht|(rb & _ & Ht)]]; [now left|right; now left|].
  right. right. exists (narrowed (BRIDGE_URL cfg)), rb. exact Ht.
Qed.

(** X5: the upstream is called only for a POST request that carries the
    configured key and whose body validated; the call goes to the
    configured URL and carries the validated request. *)
Theorem X5_call_only_when_valid cfg net request url rb :
  In (CallUpstream url rb) (fst (fetch NumberToString cfg net request)) ->
  valid_call cfg request rb /\ BRIDGE_URL cfg = Some url.
Proof.
  destruct (fetch_outcome cfg net request) as (t & resp & Hf & _ & Ht).
  rewrite Hf. cbn [fst]. intros Hin.
  destruct Ht as [->|[->|(rb' & Hv & Ht)]].
  - destruct Hin.
  - destruct Hin as [Hin|[]]. discriminate.
  - assert (Hcall : CallUpstream url rb
                    = CallUpstream (narrowed (BRIDGE_URL cfg)) rb').
    { destruct Ht as [->|[->| ->]]; simpl in Hin;
        repeat (destruct Hin as [Hin|Hin]; [try discriminate; now symmetry|]);
        destruct Hin. }
    injection Hcall as -> ->. split; [exact Hv|].
    destruct Hv as [[_ (u & k & (Hu & _) & _)] _]. rewrite Hu. reflexivity.
Qed.

(** *** Failures of the upstream *)

(** X6: when the call to the upstream throws, the response is the
    catch-all 500, with the message of the thrown value as detail, or
    "Unknown error" when it has no text message. *)
Theorem X6_network_failure cfg net request rb err :
  valid_call cfg request rb ->
  net (narrowed (BRIDGE_URL cfg)) rb = Throw err ->
  fetch NumberToString cfg net request
  = ([ReadRequestBody; CallUpstream (narrowed (BRIDGE_URL cfg)) rb],
     Ok (jsonResponse
           (UnexpectedBody "Unexpected server error." (detail_of err)) 500)).
Proof.
  intros Hv Hnet.
  rewrite (@fetch_authenticated NumberToString cfg net request (proj1 Hv)),
    (@serve_valid NumberToString cfg net request rb Hv), Hnet.
  reflexivity.
Qed.

(** X7: when the upstream answers with a success status and a body that
    is not JSON, the response is the catch-all 500 with the message of
    the parse error; the text of the answer is not read. *)
Theorem X7_upstream_not_json cfg net request rb up err :
  valid_call cfg request rb ->
  upstream_answers cfg net rb up ->
  200 <= up_status up <= 299 ->
  up_json up = Throw err ->
  fetch NumberToString cfg net request
  = (full_trace cfg rb,
     Ok (jsonResponse
           (UnexpectedBody "Unexpected server error." (detail_of err)) 500)).
Proof.
  intros Hv Hnet Hst Hj.
  assert (Hok : up_ok up = true).
  { unfold up_ok. apply andb_true_iff. split; apply Z.leb_le; lia. }
  rewrite (@fetch_authenticated NumberToString cfg net request (proj1 Hv)),
    (@serve_valid NumberToString cfg net request rb Hv).
  unfold upstream_answers in Hnet. rewrite Hnet.
  unfold io_bind at 1, respond. rewrite Hok, Hj. reflexivity.
Qed.

(** X8: an upstream error body of at most 500 characters is passed on
    whole as the detail of the 502 response. *)
Theorem X8_short_detail_whole cfg net request rb up text :
  valid_call cfg request rb ->
  upstream_answers cfg net rb up ->
  ~ (200 <= up_status up <= 299) ->
  up_text up = Ok text ->
  (String.length text <= 500)%nat ->
  fetch NumberToString cfg net request
  = ([ReadRequestBody; CallUpstream (narrowed (BRIDGE_URL cfg)) rb;
      ReadUpstreamText],
     Ok (jsonResponse
           (UpstreamBody "Upstream Pushshift bridge error." (up_status up) text)
           502)).
Proof.
  intros Hv Hnet Hst Ht Hlen.
  assert (Hok : up_ok up = false).
  { unfold up_ok. apply andb_false_iff.
    destruct (Z.leb_spec 200 (up_status up)); [right|left; reflexivity].
    apply Z.leb_gt. lia. }
  rewrite (@fetch_authenticated NumberToString cfg net request (proj1 Hv)),
    (@serve_valid NumberToString cfg net request rb Hv).
  unfold upstream_answers in Hnet. rewrite Hnet.
  unfold io_bind at 1, respond, read_text. rewrite Hok, Ht.
  cbn [perform io_catch io_bind io_ret app negb].
  rewrite (@slice0_short 500%nat text Hlen). reflexivity.
Qed.

(** *** The container and the list *)

Lemma rawComments_container (payload : value) :
  rawComments payload
  = Ok match container payload with
       | Some v => v
       | None => Arr []
       end.
Proof.
  rewrite rawComments_under. unfold container.
  destruct (nullish (under payload "comments")); [|reflexivity].
  destruct (nullish (under payload "data")); [|reflexivity].
  destruct (nullish (under payload "results")); reflexivity.
Qed.

Lemma mapM_throws (items : list value) (c : value) :
  In c items -> item_ok c = false ->
  exists err, mapM (normalise NumberToString) items = Throw err.
Proof.
  intros Hin Hc.
  pose proof (@mapM_returns NumberToString items) as Hret.
  destruct (forallb item_ok items) eqn:Hall.
  - rewrite forallb_forall in Hall. rewrite (Hall c Hin) in Hc. discriminate.
  - destruct (mapM (normalise NumberToString) items) as [rs|err];
      [discriminate|]. now exists err.
Qed.

(** X9: when the first of [comments], [data], [results] that is neither
    missing nor [null] holds something else than a list, a call that
    reached the upstream is answered with the catch-all 500; the keys
    after it are not tried. *)
Theorem X9_container_not_a_list cfg net request rb payload v :
  valid_call cfg request rb ->
  upstream_payload cfg net rb payload ->
  container payload = Some v ->
  is_list v = false ->
  exists detail,
    fetch NumberToString cfg net request
    = (full_trace cfg rb,
       Ok (jsonResponse (UnexpectedBody "Unexpected server error." detail) 500)).
Proof.
  intros Hv Hup Hc Hl.
  rewrite (@fetch_payload NumberToString cfg net request rb payload Hv Hup).
  unfold comments_of. rewrite rawComments_container, Hc. cbn [rbind].
  destruct v; try discriminate; eexists; reflexivity.
Qed.

(** X10: the list under [results] is the one that is normalised when
    [comments] and [data] are both missing or [null]. *)
Theorem X10_results_last (payload : value) (items : list value) :
  nullish (under payload "comments") = true ->
  nullish (under payload "data") = true ->
  under payload "results" = Arr items ->
  rawComments payload = Ok (Arr items) /\
  comments_of NumberToString payload = mapM (normalise NumberToString) items.
Proof.
  intros Hc Hd Hr.
  assert (Hraw : rawComments payload = Ok (Arr items)).
  { rewrite rawComments_under, Hc, Hd, Hr. reflexivity. }
  split; [exact Hraw|]. unfold comments_of. rewrite Hraw. reflexivity.
Qed.

(** X11: no partial result: when the mapping fails on one item of the
    list, wherever it stands, the whole call is answered with the
    catch-all 500 and no record is returned. *)
Theorem X11_one_bad_item_fails_all cfg net request rb payload items c :
  valid_call cfg request rb ->
  upstream_payload cfg net rb payload ->
  container payload = Some (Arr items) ->
  In c items ->
  item_ok c = false ->
  exists detail,
    fetch NumberToString cfg net request
    = (full_trace cfg rb,
       Ok (jsonResponse (UnexpectedBody "Unexpected server error." detail) 500)).
Proof.
  intros Hv Hup Hc Hin Hbad.
  rewrite (@fetch_payload NumberToString cfg net request rb payload Hv Hup).
  unfold comments_of. rewrite rawComments_container, Hc. cbn [rbind call_map].
  destruct (mapM_throws items c Hin Hbad) as [err ->].
  eexists. reflexivity.
Qed.

(** X12: when the mapping is defined on every item of the list, the
    response is 200, [count] is the number of upstream items and
    [comments] holds the record of each item, in order: nothing is
    filtered, merged or reordered. *)
Theorem X12_success_counts_items cfg net request rb payload items :
  valid_call cfg request rb ->
  upstream_payload cfg net rb payload ->
  container payload = Some (Arr items) ->
  (forall c, In c items -> item_ok c = true) ->
  exists comments,
    fetch NumberToString cfg net request
    = (full_trace cfg rb,
       Ok (jsonResponse (OkBody true (length items) comments) 200))
    /\ Forall2 (fun c r => normalise NumberToString c = Ok r) items comments.
Proof.
  intros Hv Hup Hc Hok.
  assert (Hret : returns (mapM (normalise NumberToString) items) = true).
  { rewrite mapM_returns. apply forallb_forall. exact Hok. }
  apply returns_Ok in Hret as [comments Hm]. exists comments.
  pose proof (proj1 (mapM_Forall2 _ _ _) Hm) as Hall.
  split; [|exact Hall].
  rewrite (@fetch_payload NumberToString cfg net request rb payload Hv Hup).
  unfold comments_of. rewrite rawComments_container, Hc. cbn [rbind call_map].
  rewrite Hm, (Forall2_length Hall). reflexivity.
Qed.

(** *** The fields of a record *)

Lemma text_or_null_inv (v r : value) :
  text_or_null NumberToString v = Ok r ->
  if nullish v then r = Null
  else exists text, ToString NumberToString v = Ok text /\ r = Str text.
Proof.
  unfold text_or_null. destruct (nullish v); [now intros [= <-]|].
  destruct (ToString NumberToString v) as [text|]; cbn [rbind]; [|discriminate].
  intros [= <-]. now exists text.
Qed.

(** X13: the [id] of a record is text: the item's [id] coerced to text,
    and the empty text when the item has no [id] or a [null] one. *)
Theorem X13_id_text (c r : value) :
  normalise NumberToString c = Ok r ->
  exists text,
    under r "id" = Str text /\
    (if nullish (under c "id") then text = ""
     else ToString NumberToString (under c "id") = Ok text).
Proof.
  intros Hn. apply normalise_inv in Hn.
  destruct Hn as (_ & id & author & body & permalink & subreddit
                  & Hid & _ & _ & _ & _ & ->).
  exists id. split; [reflexivity|].
  destruct (nullish (under c "id")); [|exact Hid].
  simpl in Hid. now injection Hid as <-.
Qed.

(** X14: [author], [permalink] and [subreddit] of a record are [null]
    exactly when the item's field is missing or [null], and the field
    coerced to text otherwise: an empty text, [false] or [0] are kept as
    text, not turned into [null]. *)
Theorem X14_nullable_text (c r : value) (k : string) :
  normalise NumberToString c = Ok r ->
  In k nullable_text_fields ->
  if nullish (under c k) then under r k = Null
  else exists text,
      ToString NumberToString (under c k) = Ok text /\ under r k = Str text.
Proof.
  intros Hn Hk. apply normalise_inv in Hn.
  destruct Hn as (_ & id & author & body & permalink & subreddit
                  & _ & Ha & _ & Hp & Hs & ->).
  apply text_or_null_inv in Ha, Hp, Hs.
  simpl in Hk. destruct Hk as [ <- | [ <- | [ <- | [] ] ] ].
  - change (under (Obj _) "author") with author. exact Ha.
  - change (under (Obj _) "permalink") with permalink. exact Hp.
  - change (under (Obj _) "subreddit") with subreddit. exact Hs.
Qed.

Lemma normalise_fixed (r : value) :
  NormalisedComment r = true -> normalise NumberToString r = Ok r.
Proof.
  destruct r as [| | | | | |props]; try discriminate.
  destruct props as [|[k1 v1] [|[k2 v2] [|[k3 v3] [|[k4 v4] [|[k5 v5]
    [|[k6 v6] [|[k7 v7] [|more rest]]]]]]]]; try discriminate.
  cbn [NormalisedComment]. intros H.
  repeat match type of H with
         | (_ && _)%bool = true =>
             let H' := fresh "H" in apply andb_prop in H as [H H']
         end.
  repeat match goal with
         | E : String.eqb _ _ = true |- _ => apply String.eqb_eq in E; subst
         end.
  destruct v1; try (simpl in *; discriminate).
  destruct v2; try (simpl in *; discriminate);
    (destruct v3; try (simpl in *; discriminate));
    (destruct v4; try (simpl in *; discriminate));
    (destruct v5; try (simpl in *; discriminate));
    (destruct v6; try (simpl in *; discriminate));
    (destruct v7; try (simpl in *; discriminate));
    reflexivity.
Qed.

(** X15: normalising a record again changes nothing: every record the
    mapping produces is mapped to itself. *)
Theorem X15_idempotent (c r : value) :
  normalise NumberToString c = Ok r ->
  normalise NumberToString r = Ok r.
Proof.
  intros Hn. apply normalise_fixed.
  exact (@normalise_shape NumberToString c r Hn).
Qed.

(** X16: the mapping looks at nine properties of an item and at nothing
    else: two items that agree on them get the same record, or fail
    alike. *)
Theorem X16_only_item_keys (c c' : value) :
  readable c = true -> readable c' = true ->
  (forall k, In k item_keys -> under c k = under c' k) ->
  normalise NumberToString c = normalise NumberToString c'.
Proof.
  intros Hc Hc' Hk.
  rewrite (@normalise_readable NumberToString c Hc),
    (@normalise_readable NumberToString c' Hc').
  unfold body_source.
  rewrite (Hk "id"), (Hk "author"), (Hk "body"), (Hk "selftext"),
    (Hk "score"), (Hk "created_utc"), (Hk "created"), (Hk "permalink"),
    (Hk "subreddit") by (simpl; tauto).
  reflexivity.
Qed.

Lemma is_json_lookup (props : list (string * value)) (k : string) (v : value) :
  forallb (fun kv => is_json (snd kv)) props = true ->
  lookup k props = Some v -> is_json v = true.
Proof.
  induction props as [|[k' v'] props IH]; [discriminate|].
  cbn [forallb lookup snd]. intros Hall. apply andb_prop in Hall as [Hv' Hall].
  destruct (String.eqb k k'); [now intros [= <-]|now apply IH].
Qed.

Lemma is_json_under (c : value) (k : string) :
  is_json c = true -> under c k = Undefined \/ is_json (under c k) = true.
Proof.
  intros Hc. destruct c as [| | | | | |props]; try (now left).
  unfold under. cbn [OptGet Get].
  destruct (lookup k props) as [v|] eqn:Hl; [right|now left].
  exact (is_json_lookup props k Hc Hl).
Qed.

(** X17: the record of an item that came out of [JSON.parse] holds no
    [undefined] and no NaN, so each of its seven properties is written
    by [JSON.stringify]. *)
Theorem X17_record_is_json (c r : value) :
  is_json c = true ->
  normalise NumberToString c = Ok r ->
  is_json r = true.
Proof.
  intros Hc Hn. apply normalise_inv in Hn.
  destruct Hn as (_ & id & author & body & permalink & subreddit
                  & _ & Ha & _ & Hp & Hs & ->).
  assert (Htext : forall v, string_or_null v = true -> is_json v = true)
    by (intros v; destruct v; try discriminate; reflexivity).
  assert (Hnum : forall k w, is_json w = true ->
                   is_json (if is_number (under c k) then under c k else w) = true).
  { intros k w Hw. destruct (is_json_under c k Hc) as [-> | Hj]; [exact Hw|].
    destruct (is_number (under c k)); [exact Hj|exact Hw]. }
  cbn [is_json forallb snd].
  rewrite (Htext _ (text_or_null_shape _ _ Ha)),
    (Htext _ (text_or_null_shape _ _ Hp)),
    (Htext _ (text_or_null_shape _ _ Hs)).
  rewrite (Hnum "score" Null eq_refl).
  rewrite (Hnum "created_utc" _ (Hnum "created" Null eq_refl)).
  reflexivity.
Qed.

End Coverage.

(** *** The validated request *)

Lemma optional_valid (p : list string) (v : value) (b : option number) :
  optional (number_int None None) p v = Valid b ->
  v = match b with Some x => Num x | None => Undefined end
  /\ match b with Some x => isInteger x = true | None => True end.
Proof.
  unfold optional. intros Hp.
  destruct (number_int None None p v) as [x|issues] eqn:Hn.
  - pose proof (number_int_outcome None None p v) as Hout.
    rewrite Hn in Hout. cbn [outcome] in Hout.
    apply number_int_valid in Hn. subst v. injection Hp as <-.
    split; [reflexivity|].
    unfold integer_within in Hout. unfold isInteger.
    destruct (integer_value x); [reflexivity|discriminate].
  - destruct v; try discriminate. injection Hp as <-. now split.
Qed.

Lemma default_size_valid (p : list string) (v : value) (n : number) :
  default (number_int (Some 1) (Some 500)) (Num (number_of_Z 50)) p v = Valid n ->
  v = Num n \/ (v = Undefined /\ n = number_of_Z 50).
Proof.
  unfold default. intros Hp.
  destruct v; try (left; exact (number_int_valid _ _ _ _ Hp)).
  right. split; [reflexivity|].
  apply number_int_valid in Hp. now injection Hp as <-.
Qed.

(** X18: a validated request holds the values of the body as they were
    sent: [subreddit] and [query] are the texts of the body, untrimmed,
    [size] is the number sent or 50 when none was, and [before] and
    [after] are the integers sent or are left out. *)
Theorem X18_validated_values (rawBody : value) (rb : RequestBody) :
  RequestSchema_safeParse rawBody = Valid rb ->
  exists props,
    rawBody = Obj props
    /\ field props "subreddit" = Str (rb_subreddit rb)
    /\ field props "query" = Str (rb_query rb)
    /\ (field props "size" = Num (rb_size rb)
        \/ (field props "size" = Undefined /\ rb_size rb = number_of_Z 50))
    /\ field props "before"
       = match rb_before rb with Some x => Num x | None => Undefined end
    /\ field props "after"
       = match rb_after rb with Some x => Num x | None => Undefined end
    /\ (forall x, rb_before rb = Some x \/ rb_after rb = Some x ->
                  isInteger x = true).
Proof.
  intros Hp. destruct rawBody as [| | | | | |props]; try discriminate.
  exists props. split; [reflexivity|].
  pose proof (safeParse_object props) as Hobj. rewrite Hp in Hobj.
  destruct Hobj as (Hs & Hq & Hn & Hb & Ha).
  apply string_min_valid in Hs, Hq.
  apply default_size_valid in Hn.
  apply optional_valid in Hb, Ha.
  destruct Hs as [Hs _], Hq as [Hq _], Hb as [Hb Hbi], Ha as [Ha Hai].
  repeat (split; [assumption|]).
  intros x [Hx|Hx]; rewrite Hx in *; assumption.
Qed.

Lemma safeParse_fields (props props' : list (string * value)) :
  (forall f, In f schema_fields -> field props f = field props' f) ->
  RequestSchema_safeParse (Obj props) = RequestSchema_safeParse (Obj props').
Proof.
  intros Hf. unfold RequestSchema_safeParse.
  rewrite (Hf "subreddit"), (Hf "query"), (Hf "size"), (Hf "before"),
    (Hf "after") by (simpl; tauto).
  reflexivity.
Qed.

Section Forwarding.

Variable NumberToString : number -> string.

(** X19: keys of the body that the schema does not name change nothing:
    two requests whose bodies agree on [subreddit], [query], [size],
    [before] and [after] get the same response through the same effects,
    so the same request is sent upstream. *)
Theorem X19_unknown_keys_ignored cfg net method key props props' :
  (forall f, In f schema_fields -> field props f = field props' f) ->
  fetch NumberToString cfg net (mkRequest method key (Ok (Obj props)))
  = fetch NumberToString cfg net (mkRequest method key (Ok (Obj props'))).
Proof.
  intros Hf. apply safeParse_fields in Hf.
  unfold fetch, serve, read_body. cbn [req_method req_x_mcp_key req_json].
  cbn [perform io_bind io_catch io_ret app]. rewrite Hf. reflexivity.
Qed.

End Forwarding.

(* ===================================================================== *)
(** ** The further properties on sample calls *)
(* ===================================================================== *)

Lemma X1_witness_get :
  req_method request_get <> "POST" /\
  fetch integral_NumberToString config_unset offline request_get
  = ([], Ok (jsonResponse (ErrorBody "Method not allowed. Use POST.") 405)).
Proof.
  split; [discriminate|].
  apply (@X1_method_not_allowed integral_NumberToString config_unset offline
                                request_get).
  discriminate.
Defined.

Lemma X2_witness_not_json :
  authenticated sample_config request_not_json /\
  req_json request_not_json
  = Throw (mkExn (Some "Unexpected end of JSON input")) /\
  fetch integral_NumberToString sample_config offline request_not_json
  = ([ReadRequestBody],
     Ok (jsonResponse (ErrorBody "Request body must be valid JSON.") 400)).
Proof.
  split; [apply sample_authenticated|]. split; [reflexivity|].
  apply (@X2_malformed_body integral_NumberToString sample_config offline
           request_not_json (mkExn (Some "Unexpected end of JSON input"))).
  - apply sample_authenticated.
  - reflexivity.
Defined.

Lemma X5_witness_forwarded :
  In (CallUpstream "https://bridge.example/search" sample_rb)
     (fst (fetch integral_NumberToString sample_config
                 (answering upstream_503) sample_request)) /\
  valid_call sample_config sample_request sample_rb /\
  BRIDGE_URL sample_config = Some "https://bridge.example/search".
Proof.
  assert (Hin : In (CallUpstream "https://bridge.example/search" sample_rb)
                   (fst (fetch integral_NumberToString sample_config
                               (answering upstream_503) sample_request))).
  { vm_compute. right. left. reflexivity. }
  split; [exact Hin|].
  exact (@X5_call_only_when_valid integral_NumberToString sample_config
           (answering upstream_503) sample_request
           "https://bridge.example/search" sample_rb Hin).
Defined.

Lemma X6_witness_unreachable :
  valid_call sample_config sample_request sample_rb /\
  unreachable (narrowed (BRIDGE_URL sample_config)) sample_rb
  = Throw (mkExn (Some "fetch failed")) /\
  fetch integral_NumberToString sample_config unreachable sample_request
  = ([ReadRequestBody;
      CallUpstream (narrowed (BRIDGE_URL sample_config)) sample_rb],
     Ok (jsonResponse
           (UnexpectedBody "Unexpected server error."
                           (detail_of (mkExn (Some "fetch failed")))) 500)).
Proof.
  split; [exact sample_valid_call|]. split; [reflexivity|].
  apply (@X6_network_failure integral_NumberToString sample_config unreachable
           sample_request sample_rb (mkExn (Some "fetch failed"))).
  - exact sample_valid_call.
  - reflexivity.
Defined.

Example unknown_error_detail :
  fetch integral_NumberToString sample_config offline sample_request
  = ([ReadRequestBody; CallUpstream "https://bridge.example/search" sample_rb],
     Ok (jsonResponse
           (UnexpectedBody "Unexpected server error." "Unknown error") 500)).
Proof. reflexivity. Qed.

Lemma X7_witness_html :
  valid_call sample_config sample_request sample_rb /\
  upstream_answers sample_config (answering upstream_html) sample_rb upstream_html /\
  200 <= up_status upstream_html <= 299 /\
  up_json upstream_html = Throw (mkExn (Some "Unexpected token '<'")) /\
  fetch integral_NumberToString sample_config (answering upstream_html)
        sample_request
  = (full_trace sample_config sample_rb,
     Ok (jsonResponse
           (UnexpectedBody "Unexpected server error."
                           (detail_of (mkExn (Some "Unexpected token '<'"))))
           500)).
Proof.
  assert (Hst : 200 <= up_status upstream_html <= 299) by (simpl; lia).
  split; [exact sample_valid_call|]. split; [reflexivity|].
  split; [exact Hst|]. split; [reflexivity|].
  apply (@X7_upstream_not_json integral_NumberToString sample_config
           (answering upstream_html) sample_request sample_rb upstream_html
           (mkExn (Some "Unexpected token '<'"))).
  - exact sample_valid_call.
  - reflexivity.
  - exact Hst.
  - reflexivity.
Defined.

Lemma X8_witness_404 :
  valid_call sample_config sample_request sample_rb /\
  upstream_answers sample_config (answering upstream_404) sample_rb upstream_404 /\
  ~ (200 <= up_status upstream_404 <= 299) /\
  up_text upstream_404 = Ok "no such subreddit" /\
  (String.length "no such subreddit" <= 500)%nat /\
  fetch integral_NumberToString sample_config (answering upstream_404)
        sample_request
  = ([ReadRequestBody;
      CallUpstream (narrowed (BRIDGE_URL sample_config)) sample_rb;
      ReadUpstreamText],
     Ok (jsonResponse
           (UpstreamBody "Upstream Pushshift bridge error."
                         (up_status upstream_404) "no such subreddit")
           502)).
Proof.
  assert (Hst : ~ (200 <= up_status upstream_404 <= 299)) by (simpl; lia).
  assert (Hlen : (String.length "no such subreddit" <= 500)%nat)
    by (simpl; lia).
  split; [exact sample_valid_call|]. split; [reflexivity|].
  split; [exact Hst|]. split; [reflexivity|]. split; [exact Hlen|].
  apply (@X8_short_detail_whole integral_NumberToString sample_config
           (answering upstream_404) sample_request sample_rb upstream_404
           "no such subreddit").
  - exact sample_valid_call.
  - reflexivity.
  - exact Hst.
  - reflexivity.
  - exact Hlen.
Defined.

Lemma X9_witness_text_container :
  valid_call sample_config sample_request sample_rb /\
  upstream_payload sample_config (answering (upstream_json payload_text_then_lists))
                   sample_rb payload_text_then_lists /\
  container payload_text_then_lists = Some (Str "unavailable") /\
  is_list (Str "unavailable") = false /\
  exists detail,
    fetch integral_NumberToString sample_config
          (answering (upstream_json payload_text_then_lists)) sample_request
    = (full_trace sample_config sample_rb,
       Ok (jsonResponse (UnexpectedBody "Unexpected server error." detail) 500)).
Proof.
  split; [exact sample_valid_call|]. split; [apply sample_upstream_payload|].
  split; [reflexivity|]. split; [reflexivity|].
  apply (@X9_container_not_a_list integral_NumberToString sample_config
           (answering (upstream_json payload_text_then_lists)) sample_request
           sample_rb payload_text_then_lists (Str "unavailable")).
  - exact sample_valid_call.
  - apply sample_upstream_payload.
  - reflexivity.
  - reflexivity.
Defined.

Lemma X10_witness_results_only :
  nullish (under payload_results_only "comments") = true /\
  nullish (under payload_results_only "data") = true /\
  under payload_results_only "results" = Arr [item_c] /\
  rawComments payload_results_only = Ok (Arr [item_c]) /\
  comments_of integral_NumberToString payload_results_only
  = mapM (normalise integral_NumberToString) [item_c].
Proof.
  split; [reflexivity|]. split; [reflexivity|]. split; [reflexivity|].
  apply (@X10_results_last integral_NumberToString payload_results_only [item_c]);
    reflexivity.
Defined.

Lemma X11_witness_bad_second :
  valid_call sample_config sample_request sample_rb /\
  upstream_payload sample_config (answering (upstream_json payload_bad_second))
                   sample_rb payload_bad_second /\
  container payload_bad_second = Some (Arr [item_b; Null; item_c]) /\
  In Null [item_b; Null; item_c] /\
  item_ok Null = false /\
  exists detail,
    fetch integral_NumberToString sample_config
          (answering (upstream_json payload_bad_second)) sample_request
    = (full_trace sample_config sample_rb,
       Ok (jsonResponse (UnexpectedBody "Unexpected server error." detail) 500)).
Proof.
  assert (Hin : In Null [item_b; Null; item_c]) by (right; left; reflexivity).
  split; [exact sample_valid_call|]. split; [apply sample_upstream_payload|].
  split; [reflexivity|]. split; [exact Hin|]. split; [reflexivity|].
  apply (@X11_one_bad_item_fails_all integral_NumberToString sample_config
           (answering (upstream_json payload_bad_second)) sample_request
           sample_rb payload_bad_second [item_b; Null; item_c] Null).
  - exact sample_valid_call.
  - apply sample_upstream_payload.
  - reflexivity.
  - exact Hin.
  - reflexivity.
Defined.

Lemma X12_witness_two_items :
  valid_call sample_config sample_request sample_rb /\
  upstream_payload sample_config (answering (upstream_json payload_two_items))
                   sample_rb payload_two_items /\
  container payload_two_items = Some (Arr two_items) /\
  (forall c, In c two_items -> item_ok c = true) /\
  exists comments,
    fetch integral_NumberToString sample_config
          (answering (upstream_json payload_two_items)) sample_request
    = (full_trace sample_config sample_rb,
       Ok (jsonResponse (OkBody true (length two_items) comments) 200))
    /\ Forall2 (fun c r => normalise integral_NumberToString c = Ok r)
               two_items comments.
Proof.
  assert (Hok : forall c, In c two_items -> item_ok c = true).
  { intros c Hc. simpl in Hc. destruct Hc as [ <- | [ <- | [] ] ]; reflexivity. }
  split; [exact sample_valid_call|]. split; [apply sample_upstream_payload|].
  split; [reflexivity|]. split; [exact Hok|].
  apply (@X12_success_counts_items integral_NumberToString sample_config
           (answering (upstream_json payload_two_items)) sample_request
           sample_rb payload_two_items two_items).
  - exact sample_valid_call.
  - apply sample_upstream_payload.
  - reflexivity.
  - exact Hok.
Defined.

Lemma X13_witness_item_a :
  normalise integral_NumberToString item_a = Ok record_a /\
  exists text,
    under record_a "id" = Str text /\
    (if nullish (under item_a "id") then text = ""
     else ToString integral_NumberToString (under item_a "id") = Ok text).
Proof.
  split; [reflexivity|].
  apply (@X13_id_text integral_NumberToString item_a record_a). reflexivity.
Defined.

Lemma X14_witness_falsy_author :
  normalise integral_NumberToString item_falsy_fields = Ok record_falsy_fields /\
  In "author" nullable_text_fields /\
  if nullish (under item_falsy_fields "author")
  then under record_falsy_fields "author" = Null
  else exists text,
      ToString integral_NumberToString (under item_falsy_fields "author") = Ok text
      /\ under record_falsy_fields "author" = Str text.
Proof.
  assert (Hk : In "author" nullable_text_fields) by (left; reflexivity).
  split; [reflexivity|]. split; [exact Hk|].
  apply (@X14_nullable_text integral_NumberToString item_falsy_fields
                            record_falsy_fields "author").
  - reflexivity.
  - exact Hk.
Defined.

Lemma X15_witness_selftext :
  normalise integral_NumberToString item_selftext = Ok record_selftext /\
  normalise integral_NumberToString record_selftext = Ok record_selftext.
Proof.
  split; [reflexivity|].
  apply (@X15_idempotent integral_NumberToString item_selftext record_selftext).
  reflexivity.
Defined.

Lemma X16_witness_more_keys :
  readable item_a = true /\ readable item_a_more = true /\
  (forall k, In k item_keys -> under item_a k = under item_a_more k) /\
  normalise integral_NumberToString item_a
  = normalise integral_NumberToString item_a_more.
Proof.
  assert (Hk : forall k, In k item_keys -> under item_a k = under item_a_more k).
  { intros k Hk. simpl in Hk.
    repeat (destruct Hk as [ <- | Hk ]; [reflexivity|]). destruct Hk. }
  split; [reflexivity|]. split; [reflexivity|]. split; [exact Hk|].
  apply (@X16_only_item_keys integral_NumberToString item_a item_a_more);
    [reflexivity|reflexivity|exact Hk].
Defined.

Lemma X17_witness_text_score :
  is_json item_text_score = true /\
  normalise integral_NumberToString item_text_score = Ok record_text_score /\
  is_json record_text_score = true.
Proof.
  split; [reflexivity|]. split; [reflexivity|].
  apply (@X17_record_is_json integral_NumberToString item_text_score
                             record_text_score); reflexivity.
Defined.

Lemma X18_witness_with_after :
  RequestSchema_safeParse body_with_after = Valid rb_with_after /\
  exists props,
    body_with_after = Obj props
    /\ field props "subreddit" = Str (rb_subreddit rb_with_after)
    /\ field props "query" = Str (rb_query rb_with_after)
    /\ (field props "size" = Num (rb_size rb_with_after)
        \/ (field props "size" = Undefined
            /\ rb_size rb_with_after = number_of_Z 50))
    /\ field props "before"
       = match rb_before rb_with_after with
         | Some x => Num x
         | None => Undefined
         end
    /\ field props "after"
       = match rb_after rb_with_after with
         | Some x => Num x
         | None => Undefined
         end
    /\ (forall x, rb_before rb_with_after = Some x \/ rb_after rb_with_after = Some x ->
                  isInteger x = true).
Proof.
  split; [reflexivity|].
  apply (@X18_validated_values body_with_after rb_with_after). reflexivity.
Defined.

Lemma X19_witness_more_keys :
  (forall f, In f schema_fields -> field sample_props f = field sample_props_more f) /\
  fetch integral_NumberToString sample_config (answering upstream_503)
        (mkRequest "POST" (Some "s3cret") (Ok (Obj sample_props)))
  = fetch integral_NumberToString sample_config (answering upstream_503)
          (mkRequest "POST" (Some "s3cret") (Ok (Obj sample_props_more))).
Proof.
  assert (Hf : forall f, In f schema_fields ->
                         field sample_props f = field sample_props_more f).
  { intros f Hf. simpl in Hf.
    repeat (destruct Hf as [ <- | Hf ]; [reflexivity|]). destruct Hf. }
  split; [exact Hf|].
  exact (@X19_unknown_keys_ignored integral_NumberToString sample_config
           (answering upstream_503) "POST" (Some "s3cret")
           sample_props sample_props_more Hf).
Defined.
